(** * Dropbox ingestion: sync route and queue worker

    A shallow embedding of
      - [backend/routes/dropbox.py]   ([manual_sync]),
      - [backend/services/dropbox_service.py] (extension helpers),
      - [worker/main.py]   ([DoclingProcessor], [DropboxFileWorker]),
    together with the properties of the ingestion design that these
    functions decide.

    Conventions.  Python [str] is [string]; [None] is [option]'s [None];
    [int] is [Z]; [datetime] values are instants on an integer time line
    ([Z]); [float] configuration values are exact rationals ([Q]).  Calls
    into external services (Dropbox, MongoDB driver, blob storage, Service
    Bus, the text splitter, the tokenizer, the embedding endpoint) take their
    outcome from an explicit environment record: what the call returned, or
    that it raised. *)

From Stdlib Require Import ZArith QArith Qpower String Ascii List Lia.
From stdpp Require Import base list gmap strings pretty sorting.

Local Open Scope Z_scope.
Local Open Scope stdpp_scope.

(* ===================================================================== *)
(** ** Python values, truthiness and exceptions *)
(* ===================================================================== *)

Module Py.

(** An exception object: its class name and [str(e)]. *)
Record exc := Exc { exc_type : string; exc_msg : string }.

Inductive res (A : Type) :=
| Ok (a : A)
| Raise (e : exc).
Arguments Ok {A} a.
Arguments Raise {A} e.

(** Statements that run against a mutable store [St]; effects made before
    an exception is raised stay in the store. *)
Definition M (St A : Type) := St -> res A * St.

Definition ret {St A} (a : A) : M St A := fun s => (Ok a, s).
Definition raise {St A} (e : exc) : M St A := fun s => (Raise e, s).
Definition bind {St A B} (m : M St A) (k : A -> M St B) : M St B :=
  fun s => match m s with
           | (Ok a, s') => k a s'
           | (Raise e, s') => (Raise e, s')
           end.
Definition get {St} : M St St := fun s => (Ok s, s).
Definition modify {St} (f : St -> St) : M St unit := fun s => (Ok tt, f s).
(** [try: m  except Exception as e: h e]. *)
Definition try_except {St A} (m : M St A) (h : exc -> M St A) : M St A :=
  fun s => match m s with
           | (Ok a, s') => (Ok a, s')
           | (Raise e, s') => h e s'
           end.

(** Truthiness of [str] and of [Optional[...]]. *)
Definition truthy_str (s : string) : bool :=
  match s with EmptyString => false | _ => true end.
Definition truthy_opt_str (o : option string) : bool :=
  match o with Some s => truthy_str s | None => false end.
(** A [datetime] is always truthy; only [None] is falsy. *)
Definition truthy_opt_time (o : option Z) : bool :=
  match o with Some _ => true | None => false end.

(** Whitespace as removed by [str.strip()].  Strings are byte strings
    here, so only the ASCII whitespace characters count. *)
Definition is_space (a : ascii) : bool :=
  let n := nat_of_ascii a in
  ((9 <=? n) && (n <=? 13) || (28 <=? n) && (n <=? 32))%nat.

Fixpoint lstrip (s : string) : string :=
  match s with
  | String a s' => if is_space a then lstrip s' else s
  | EmptyString => EmptyString
  end.
Definition strip (s : string) : string :=
  String.rev (lstrip (String.rev (lstrip s))).

Definition startswith (s p : string) : bool := String.prefix p s.

(** [p in s] for strings. *)
Fixpoint contains (s p : string) : bool :=
  String.prefix p s ||
  match s with
  | String _ s' => contains s' p
  | EmptyString => false
  end.

(** [str.lower()] on the ASCII letters. *)
Definition lower_ascii (a : ascii) : ascii :=
  let n := nat_of_ascii a in
  if ((65 <=? n) && (n <=? 90))%nat then ascii_of_nat (n + 32) else a.
Fixpoint lower (s : string) : string :=
  match s with
  | String a s' => String (lower_ascii a) (lower s')
  | EmptyString => EmptyString
  end.

(** [s.split(sep)] for a one-character separator. *)
Fixpoint split_go (sep : ascii) (cur : string) (s : string) : list string :=
  match s with
  | EmptyString => [String.rev cur]
  | String a s' =>
      if Ascii.eqb a sep then String.rev cur :: split_go sep EmptyString s'
      else split_go sep (String a cur) s'
  end.
Definition split (sep : ascii) (s : string) : list string :=
  split_go sep EmptyString s.

(** ["/".join(parts)] and friends. *)
Fixpoint join (sep : string) (parts : list string) : string :=
  match parts with
  | [] => EmptyString
  | [p] => p
  | p :: ps => p +:+ sep +:+ join sep ps
  end.

End Py.

Import Py.

Declare Scope py_scope.
Delimit Scope py_scope with py.
Notation "x <- m ;; k" := (Py.bind m (fun x => k))
  (at level 100, m at next level, right associativity) : py_scope.
Notation "m ;;; k" := (Py.bind m (fun _ => k))
  (at level 100, right associativity) : py_scope.
Local Open Scope py_scope.

(* ===================================================================== *)
(** ** Worker configuration ([WorkerConfig]) *)
(* ===================================================================== *)

Record WorkerConfig := {
  max_receive_count : Z;      (* MAX_RECEIVE_COUNT, default 3 *)
  max_retries : Z;            (* MAX_RETRIES, default 3 *)
  retry_delay_base : Q;       (* RETRY_DELAY_BASE, default 2.0 *)
  chunk_size : Z;             (* CHUNK_SIZE, default 512 *)
  chunk_overlap : Z           (* CHUNK_OVERLAP, default 50 *)
}.

Definition default_config : WorkerConfig :=
  {| max_receive_count := 3; max_retries := 3; retry_delay_base := 2 # 1;
     chunk_size := 512; chunk_overlap := 50 |}.

(* ===================================================================== *)
(** ** Download with retry ([DropboxFileWorker.download_file_with_retry]) *)
(* ===================================================================== *)

Module Retry.

(** What happens during one call of the method, in order: a call of
    [_download_file] in iteration [attempt] (with whether it returned),
    or an [asyncio.sleep(delay)]. *)
Inductive event :=
| Called (attempt : nat) (ok : bool)
| Slept (delay : Q).

Record run := {
  returned : bool;
  trace : list event
}.

(** The body of [for attempt in range(max_retries)], from index [attempt]
    on with [todo] iterations left.  [outcome k] tells whether the call of
    [_download_file] in iteration [k] returned [True] ([true]) or raised
    ([false]). *)
Fixpoint loop (cfg : WorkerConfig) (outcome : nat -> bool)
         (attempt todo : nat) : run :=
  match todo with
  | O => {| returned := false; trace := [] |}
  | S todo' =>
      if outcome attempt then
        {| returned := true; trace := [Called attempt true] |}
      else
        let rest := loop cfg outcome (S attempt) todo' in
        if Z.of_nat attempt <? max_retries cfg - 1 then
          {| returned := returned rest;
             trace := Called attempt false
                      :: Slept (Qpower (retry_delay_base cfg)
                                       (Z.of_nat attempt))
                      :: trace rest |}
        else
          {| returned := returned rest;
             trace := Called attempt false :: trace rest |}
  end.

Definition download_file_with_retry (cfg : WorkerConfig)
           (outcome : nat -> bool) : run :=
  loop cfg outcome 0 (Z.to_nat (max_retries cfg)).





End Retry.

(* ===================================================================== *)
(** ** Documents of the two MongoDB collections *)
(* ===================================================================== *)

(** A document of [dropbox_files].  [f_id] is the hexadecimal form of its
    [_id]; fields the code reads with [.get] are optional. *)
Record FileDoc := {
  f_id : string;
  dropbox_path : string;
  dropbox_file_id : string;
  dropbox_rev : option string;
  filename : string;
  file_type : string;
  blob_url : string;
  file_hash : string;
  file_size : Z;
  user_id : string;
  processing_status : string;
  chunk_count : Z;
  created_at : Z;
  updated_at : Z;
  dropbox_created_at : option Z;
  dropbox_modified_at : option Z;
  metadata_folder : string;
  metadata_content_hash : option string;
  markdown_blob_url : option string;
  attempts : option Z;            (* processing_metadata.attempts *)
  last_error : option string      (* processing_metadata.last_error *)
}.

(** [{"$set": {"processing_status": "processing", "updated_at": now}}] *)
Definition set_processing (now : Z) (d : FileDoc) : FileDoc :=
  {| f_id := f_id d; dropbox_path := dropbox_path d;
     dropbox_file_id := dropbox_file_id d; dropbox_rev := dropbox_rev d;
     filename := filename d; file_type := file_type d;
     blob_url := blob_url d; file_hash := file_hash d;
     file_size := file_size d; user_id := user_id d;
     processing_status := "processing";
     chunk_count := chunk_count d; created_at := created_at d;
     updated_at := now;
     dropbox_created_at := dropbox_created_at d;
     dropbox_modified_at := dropbox_modified_at d;
     metadata_folder := metadata_folder d;
     metadata_content_hash := metadata_content_hash d;
     markdown_blob_url := markdown_blob_url d;
     attempts := attempts d; last_error := last_error d |}.

(** [{"$set": {"processing_status": "completed", "markdown_blob_url": url,
              "chunk_count": n, "updated_at": now}}] *)
Definition set_completed (url : string) (n : Z) (now : Z) (d : FileDoc)
  : FileDoc :=
  {| f_id := f_id d; dropbox_path := dropbox_path d;
     dropbox_file_id := dropbox_file_id d; dropbox_rev := dropbox_rev d;
     filename := filename d; file_type := file_type d;
     blob_url := blob_url d; file_hash := file_hash d;
     file_size := file_size d; user_id := user_id d;
     processing_status := "completed";
     chunk_count := n; created_at := created_at d;
     updated_at := now;
     dropbox_created_at := dropbox_created_at d;
     dropbox_modified_at := dropbox_modified_at d;
     metadata_folder := metadata_folder d;
     metadata_content_hash := metadata_content_hash d;
     markdown_blob_url := Some url;
     attempts := attempts d; last_error := last_error d |}.

(** [{"$set": {"processing_status": "failed",
              "processing_metadata.last_error": str(e), "updated_at": now}}] *)
Definition set_failed (err : string) (now : Z) (d : FileDoc) : FileDoc :=
  {| f_id := f_id d; dropbox_path := dropbox_path d;
     dropbox_file_id := dropbox_file_id d; dropbox_rev := dropbox_rev d;
     filename := filename d; file_type := file_type d;
     blob_url := blob_url d; file_hash := file_hash d;
     file_size := file_size d; user_id := user_id d;
     processing_status := "failed";
     chunk_count := chunk_count d; created_at := created_at d;
     updated_at := now;
     dropbox_created_at := dropbox_created_at d;
     dropbox_modified_at := dropbox_modified_at d;
     metadata_folder := metadata_folder d;
     metadata_content_hash := metadata_content_hash d;
     markdown_blob_url := markdown_blob_url d;
     attempts := attempts d; last_error := Some err |}.

(** [{"$set": {"dropbox_modified_at": m}}] *)
Definition set_modified (m : option Z) (d : FileDoc) : FileDoc :=
  {| f_id := f_id d; dropbox_path := dropbox_path d;
     dropbox_file_id := dropbox_file_id d; dropbox_rev := dropbox_rev d;
     filename := filename d; file_type := file_type d;
     blob_url := blob_url d; file_hash := file_hash d;
     file_size := file_size d; user_id := user_id d;
     processing_status := processing_status d;
     chunk_count := chunk_count d; created_at := created_at d;
     updated_at := updated_at d;
     dropbox_created_at := dropbox_created_at d;
     dropbox_modified_at := m;
     metadata_folder := metadata_folder d;
     metadata_content_hash := metadata_content_hash d;
     markdown_blob_url := markdown_blob_url d;
     attempts := attempts d; last_error := last_error d |}.

(** An embedding vector as returned by the endpoint. *)
Definition Embedding := list Q.

(** A document of [dropbox_chunks]. *)
Record ChunkDoc := {
  cd_file_id : string;
  cd_chunk_index : nat;
  cd_content : string;
  cd_embedding : Embedding;
  cd_chunk_type : string;
  cd_char_count : nat;
  cd_token_count : nat;
  cd_created_at : Z
}.

(** [collection.update_one({"_id": fid}, {"$set": ...})]: the first
    document with that id is rewritten; the second component is
    [matched_count]. *)
Fixpoint update_one (fid : string) (f : FileDoc -> FileDoc)
         (c : list FileDoc) : list FileDoc * Z :=
  match c with
  | [] => ([], 0)
  | d :: c' =>
      if bool_decide (f_id d = fid) then (f d :: c', 1)
      else let '(c'', n) := update_one fid f c' in (d :: c'', n)
  end.

(** [collection.find_one({"_id": fid})] *)
Definition find_by_id (fid : string) (c : list FileDoc) : option FileDoc :=
  List.find (fun d => bool_decide (f_id d = fid)) c.

(** [ObjectId(s)]: accepts exactly 24 hexadecimal digits, raises
    [InvalidId] ([None]) otherwise; ids are kept in lower case. *)
Definition is_hex (a : ascii) : bool :=
  let n := nat_of_ascii a in
  ((48 <=? n) && (n <=? 57) || (65 <=? n) && (n <=? 70)
   || (97 <=? n) && (n <=? 102))%nat.
Definition ObjectId (s : string) : option string :=
  if ((String.length s =? 24)%nat
      && forallb is_hex (list_ascii_of_string s))%bool
  then Some (Py.lower s) else None.

(* ===================================================================== *)
(** ** The worker ([worker/main.py]) *)
(* ===================================================================== *)

(** The state the worker writes to: both collections of the database. *)
Record Db := {
  dropbox_files : list FileDoc;
  dropbox_chunks : list ChunkDoc
}.

(** The decoded body of a queue message ([json.loads] followed by the
    [.get] calls of [process_dropbox_file]); a key that is missing or
    [null] reads as [None]. *)
Record MessageData := {
  msg_file_id : option string;
  msg_blob_url : option string;
  msg_filename : option string;
  msg_file_type : option string;
  msg_dropbox_path : string
}.

(** A received Service Bus message.  [body = None]: the body does not
    decode to a JSON object (one of the four exception classes of the
    inner [except]).  [delivery_count = None]: the AMQP header is absent
    and the SDK's property is [None]. *)
Record ServiceBusReceivedMessage := {
  body : option MessageData;
  delivery_count : option Z
}.

(** A chunk dictionary of [chunk_markdown]; the key ["embedding"] is
    absent until [generate_embeddings] sets it. *)
Record Chunk := {
  chunk_index : nat;
  content : string;
  chunk_type : string;
  char_count : nat;
  token_count : nat;
  embedding : option Embedding
}.

Definition set_embedding (e : Embedding) (c : Chunk) : Chunk :=
  {| chunk_index := chunk_index c; content := content c;
     chunk_type := chunk_type c; char_count := char_count c;
     token_count := token_count c; embedding := Some e |}.

(** Outcomes of the external calls during one run of
    [process_dropbox_file]. *)
Record WorkerEnv := {
  now : Z;                               (* datetime.utcnow() *)
  mongo_error : string;                  (* str(e) of a driver error *)
  processing_update_raises : bool;       (* update_one, line 568 *)
  download_outcome : nat -> bool;        (* k-th call of _download_file *)
  converter_available : bool;            (* self.converter is set *)
  docling_convert : option string;       (* None: convert/export raised *)
  blob_upload_raises : bool;             (* blob_client.upload_blob *)
  markdown_url : string -> string;       (* URL of an uploaded blob name *)
  split_text : string -> option (list string);
                                         (* None: building the splitter or
                                            split_text raised *)
  encoding : option (string -> option nat);
                                         (* tiktoken; inner None: encode
                                            raised *)
  openai_client : bool;                  (* self.openai_client is set *)
  embeddings_create : list string -> option (list Embedding);
                                         (* response.data; None: raised *)
  insert_many_raises : bool;             (* dropbox_chunks.insert_many *)
  completion_update_raises : bool;       (* update_one, lines 609 / 648 *)
  failed_update_raises : bool            (* update_one, line 677 *)
}.

Module Docling.

(** [DoclingProcessor.convert_to_markdown] *)
Definition convert_to_markdown (env : WorkerEnv) : option string :=
  if converter_available env then docling_convert env else None.

(** [DoclingProcessor.count_tokens] *)
Definition count_tokens (env : WorkerEnv) (text : string) : nat :=
  match encoding env with
  | Some encode =>
      match encode text with
      | Some n => n
      | None => (String.length text / 4)%nat
      end
  | None => (String.length text / 4)%nat
  end.

(** The [chunk_type] decision of the loop body. *)
Definition classify (chunk_text : string) : string :=
  if Py.contains chunk_text "|" && Py.contains chunk_text "---"
  then "table"
  else if Py.startswith chunk_text "- " || Py.startswith chunk_text "* "
  then "list"
  else if Py.startswith chunk_text "#" then "heading"
  else "text".

(** [for idx, chunk_text in enumerate(chunks_text)] with [idx] starting at
    the given value. *)
Fixpoint chunk_loop (env : WorkerEnv) (idx : nat) (chunks_text : list string)
  : list Chunk :=
  match chunks_text with
  | [] => []
  | piece :: rest =>
      let chunk_text := Py.strip piece in
      if Py.truthy_str chunk_text then
        {| chunk_index := idx;
           content := chunk_text;
           chunk_type := classify chunk_text;
           char_count := String.length chunk_text;
           token_count := count_tokens env chunk_text;
           embedding := None |}
        :: chunk_loop env (S idx) rest
      else chunk_loop env (S idx) rest
  end.

(** [DoclingProcessor.chunk_markdown] *)
Definition chunk_markdown (env : WorkerEnv) (markdown_content : string)
  : list Chunk :=
  match split_text env markdown_content with
  | Some chunks_text => chunk_loop env 0 chunks_text
  | None => []
  end.

(** [for idx, embedding_data in enumerate(response.data):
       if idx < len(chunks): chunks[idx]["embedding"] = ...] *)
Fixpoint assign_embeddings (idx : nat) (data : list Embedding)
         (chunks : list Chunk) : list Chunk :=
  match data with
  | [] => chunks
  | e :: data' =>
      assign_embeddings (S idx) data'
        (if (idx <? length chunks)%nat
         then alter (set_embedding e) idx chunks
         else chunks)
  end.

(** [DoclingProcessor.generate_embeddings] *)
Definition generate_embeddings (env : WorkerEnv) (chunks : list Chunk)
  : list Chunk :=
  if negb (openai_client env) then chunks
  else
    let texts := map content chunks in
    match texts with
    | [] => chunks
    | _ =>
        match embeddings_create env texts with
        | Some data => assign_embeddings 0 data chunks
        | None => chunks
        end
    end.

End Docling.

Module Worker.
Import Docling.

Definition files_update_one (raises : bool) (env : WorkerEnv)
           (fid : string) (f : FileDoc -> FileDoc) : M Db Z :=
  fun db =>
    if raises then (Raise (Exc "PyMongoError" (mongo_error env)), db)
    else
      let '(c, n) := update_one fid f (dropbox_files db) in
      (Ok n, {| dropbox_files := c; dropbox_chunks := dropbox_chunks db |}).

Definition chunks_insert_many (env : WorkerEnv) (docs : list ChunkDoc)
  : M Db unit :=
  fun db =>
    if insert_many_raises env
    then (Raise (Exc "PyMongoError" (mongo_error env)), db)
    else (Ok tt, {| dropbox_files := dropbox_files db;
                    dropbox_chunks := dropbox_chunks db ++ docs |}).

(** [DropboxFileWorker.upload_markdown_to_blob] *)
Definition upload_markdown_to_blob (env : WorkerEnv) (file_id : string)
  : option string :=
  if blob_upload_raises env then None
  else Some (markdown_url env ("markdown/" +:+ file_id +:+ ".md")).

(** Lines 554-562: the four required fields, all truthy. *)
Definition required_fields (m : MessageData)
  : option (string * string * string * string) :=
  match msg_file_id m, msg_blob_url m, msg_filename m, msg_file_type m with
  | Some fid, Some url, Some name, Some ty =>
      if Py.truthy_str fid && Py.truthy_str url && Py.truthy_str name
         && Py.truthy_str ty
      then Some (fid, url, name, ty) else None
  | _, _, _, _ => None
  end.

(** Lines 566-584: [true] when the record was moved to "processing". *)
Definition mark_processing (env : WorkerEnv) (file_id : string)
  : M Db bool :=
  try_except
    (match ObjectId file_id with
     | None => raise (Exc "InvalidId" file_id)
     | Some oid =>
         matched <- files_update_one (processing_update_raises env) env oid
                      (set_processing (now env));;
         ret (negb (matched =? 0))
     end)
    (fun _ => ret false).

(** Lines 625-640: chunks without the key ["embedding"] are skipped. *)
Definition doc_chunk (env : WorkerEnv) (oid : string) (c : Chunk)
           (e : Embedding) : ChunkDoc :=
  {| cd_file_id := oid;
     cd_chunk_index := chunk_index c;
     cd_content := content c;
     cd_embedding := e;
     cd_chunk_type := chunk_type c;
     cd_char_count := char_count c;
     cd_token_count := token_count c;
     cd_created_at := now env |}.

Definition document_chunks (env : WorkerEnv) (oid : string)
           (chunks : list Chunk) : list ChunkDoc :=
  omap (fun c =>
          match embedding c with
          | None => None
          | Some e => Some (doc_chunk env oid c e)
          end) chunks.

(** Lines 605-661: what is done with the chunks of the markdown. *)
Definition persist (env : WorkerEnv) (oid markdown_blob_url : string)
           (chunks : list Chunk) : M Db bool :=
  match chunks with
  | [] =>
      files_update_one (completion_update_raises env) env oid
        (set_completed markdown_blob_url 0 (now env));;;
      ret true
  | _ =>
      let chunks_with_embeddings := generate_embeddings env chunks in
      let docs := document_chunks env oid chunks_with_embeddings in
      match docs with
      | [] => ret tt
      | _ => chunks_insert_many env docs
      end;;;
      files_update_one (completion_update_raises env) env oid
        (set_completed markdown_blob_url (Z.of_nat (length docs))
                       (now env));;;
      ret true
  end.

(** Lines 590-661: the body of the inner [try].  (The scratch file of
    lines 586-588 and its removal in the [finally] touch no state that is
    modelled here.) *)
Definition pipeline (cfg : WorkerConfig) (env : WorkerEnv)
           (file_id oid : string) : M Db bool :=
  (if Retry.returned
        (Retry.download_file_with_retry cfg (download_outcome env))
   then ret tt
   else raise (Exc "Exception" "Failed to download file after retries"));;;
  markdown_content <-
    match convert_to_markdown env with
    | Some md => if Py.truthy_str md then ret md
                 else raise (Exc "Exception" "Failed to convert to markdown")
    | None => raise (Exc "Exception" "Failed to convert to markdown")
    end;;
  markdown_blob_url <-
    match upload_markdown_to_blob env file_id with
    | Some url =>
        if Py.truthy_str url then ret url
        else raise (Exc "Exception"
                        "Failed to upload markdown to blob storage")
    | None => raise (Exc "Exception"
                         "Failed to upload markdown to blob storage")
    end;;
  persist env oid markdown_blob_url (chunk_markdown env markdown_content).

(** Lines 670-690: the outer [except Exception as e]. *)
Definition on_failure (env : WorkerEnv) (oid : string) (e : exc)
  : M Db bool :=
  try_except
    (files_update_one (failed_update_raises env) env oid
       (set_failed (exc_msg e) (now env));;;
     ret tt)
    (fun _ => ret tt);;;
  ret false.

(** [DropboxFileWorker.process_dropbox_file] *)
Definition process_dropbox_file (cfg : WorkerConfig) (env : WorkerEnv)
           (message : ServiceBusReceivedMessage) : M Db bool :=
  match body message with
  | None => ret false
  | Some message_data =>
      match required_fields message_data with
      | None => ret false
      | Some (file_id, _, _, _) =>
          marked <- mark_processing env file_id;;
          if marked then
            let oid := default file_id (ObjectId file_id) in
            try_except (pipeline cfg env file_id oid) (on_failure env oid)
          else ret false
      end
  end.

(** The call on the receiver that settles a message. *)
Inductive Resolution :=
| complete_message
| dead_letter_message (reason error_description : string)
| abandon_message.

(** Lines 723-750 of [run]: what is done with a message once
    [process_dropbox_file] has returned [success].  Comparing a [None]
    delivery count raises [TypeError], which the generic handler turns
    into an abandon. *)
Definition resolve (cfg : WorkerConfig) (msg : ServiceBusReceivedMessage)
           (success : bool) : Resolution :=
  if success then complete_message
  else
    match delivery_count msg with
    | Some n =>
        if max_receive_count cfg <=? n then
          dead_letter_message "MaxDeliveryCountExceeded"
            ("Message failed processing after " +:+ pretty n
             +:+ " attempts")
        else abandon_message
    | None => abandon_message
    end.

(** The queue as the consumer sees it: a message is delivered with its
    current delivery count, every abandon makes it visible again with the
    count incremented, and a completed or dead-lettered message leaves the
    queue.  [deliveries] lists the settlements of a message in order, from
    a delivery with the given [count] on; [succeeds k] is the result of
    [process_dropbox_file] on the delivery whose count is [k].  The worker
    reads the count as the number of the attempt ("attempt k/max" in its
    log, 1 when the attribute is missing), so a new message starts at
    [count = 1]. *)
Fixpoint deliveries (cfg : WorkerConfig) (succeeds : Z -> bool)
         (m : MessageData) (count : Z) (fuel : nat) : list Resolution :=
  match fuel with
  | O => []
  | S fuel' =>
      let msg := {| body := Some m; delivery_count := Some count |} in
      let r := resolve cfg msg (succeeds count) in
      match r with
      | abandon_message => r :: deliveries cfg succeeds m (count + 1) fuel'
      | _ => [r]
      end
  end.

End Worker.

(* ===================================================================== *)
(** ** The sync route ([backend/routes/dropbox.py]) *)
(* ===================================================================== *)

(** One entry of [DropboxService.list_files]. *)
Record FileMetadata := {
  fm_id : string;
  fm_name : string;
  fm_path_display : string;
  fm_size : Z;
  fm_modified : option Z;            (* client_modified *)
  fm_server_modified : option Z;
  fm_rev : option string;
  fm_content_hash : option string    (* Dropbox's own content hash *)
}.

(** The body of a queue message built by
    [QueueService.send_dropbox_processing_message]; its ["metadata"] is the
    empty object. *)
Record WorkMessage := {
  wm_message_type : string;
  wm_file_id : string;
  wm_dropbox_path : string;
  wm_dropbox_file_id : string;
  wm_blob_url : string;
  wm_filename : string;
  wm_file_type : string;
  wm_user_id : string;
  wm_timestamp : Z
}.

Record SyncResponse := {
  sr_status : string;
  sr_files_queued : Z;
  sr_files_skipped : Z;
  sr_message : string
}.

(** Outcomes of the external calls while one listed file is handled. *)
Record SyncEnv := {
  s_now : Z;                              (* datetime.utcnow() *)
  find_one_raises : bool;                 (* find_one, line 93 *)
  touch_raises : bool;                    (* update_one, line 114 *)
  download : option string;               (* None: download_file raised *)
  sha256_hexdigest : string -> string;    (* hashlib.sha256(..).hexdigest() *)
  upload_raises : bool;                   (* blob_client.upload_blob *)
  client_url : string -> string;          (* blob_client.url *)
  upsert_raises : bool;                   (* update_one(upsert=True) *)
  new_object_id : string;                 (* _id given to an inserted doc *)
  refind_raises : bool;                   (* find_one, line 180 *)
  send_ok : bool                          (* the queue service's result *)
}.

(** Everything the route reads or writes: the [dropbox_files] collection,
    the blob container, the queue, the paths fetched from Dropbox and the
    two counters of [manual_sync]. *)
Record SyncState := {
  files : list FileDoc;
  blobs : gmap string string;
  queue : list WorkMessage;
  downloaded : list string;
  files_queued : Z;
  files_skipped : Z
}.

Module DropboxService.

(** [DropboxService.get_file_extension] *)
Definition get_file_extension (filename : string) : string :=
  if Py.contains filename "." then
    Py.lower (List.last (Py.split "." filename) EmptyString)
  else EmptyString.

Definition supported_types : list string :=
  ["pdf"; "docx"; "doc"; "pptx"; "ppt"; "txt"; "md"; "html"; "htm"; "rtf";
   "xlsx"; "xls"; "csv"].

(** [DropboxService.is_supported_file_type] *)
Definition is_supported_file_type (file_type : string) : bool :=
  bool_decide (Py.lower file_type ∈ supported_types).

End DropboxService.

Module Sync.
Import DropboxService.

Definition with_files (c : list FileDoc) (s : SyncState) : SyncState :=
  {| files := c; blobs := blobs s; queue := queue s;
     downloaded := downloaded s; files_queued := files_queued s;
     files_skipped := files_skipped s |}.

(** [files_skipped += 1] *)
Definition incr_skipped : M SyncState unit :=
  Py.modify (fun s =>
    {| files := files s; blobs := blobs s; queue := queue s;
       downloaded := downloaded s; files_queued := files_queued s;
       files_skipped := files_skipped s + 1 |}).

(** [files_queued += 1] *)
Definition incr_queued : M SyncState unit :=
  Py.modify (fun s =>
    {| files := files s; blobs := blobs s; queue := queue s;
       downloaded := downloaded s; files_queued := files_queued s + 1;
       files_skipped := files_skipped s |}).

Definition mongo_down : exc := Exc "PyMongoError" "database unavailable".

(** [db.dropbox_files.find_one({"dropbox_file_id": id})] *)
Definition db_find_one (raises : bool) (id : string)
  : M SyncState (option FileDoc) :=
  fun s =>
    if raises then (Raise mongo_down, s)
    else (Ok (List.find (fun d => bool_decide (dropbox_file_id d = id))
                        (files s)), s).

(** [db.dropbox_files.update_one({"_id": oid},
                                 {"$set": {"dropbox_modified_at": m}})] *)
Definition db_touch (raises : bool) (oid : string) (m : option Z)
  : M SyncState unit :=
  fun s =>
    if raises then (Raise mongo_down, s)
    else (Ok tt, with_files (fst (update_one oid (set_modified m) (files s)))
                            s).

(** How the deduplication check leaves the loop body: [Skip] is the
    [continue], [Proceed] falls through to the download. *)
Inductive Decision := Skip | Proceed.

(** Lines 91-121. *)
Definition dedup_check (env : SyncEnv) (force_reprocess : bool)
           (file_metadata : FileMetadata) : M SyncState Decision :=
  if negb force_reprocess then
    existing <- db_find_one (find_one_raises env) (fm_id file_metadata);;
    match existing with
    | Some existing =>
        let existing_modified := dropbox_modified_at existing in
        let new_modified := fm_server_modified file_metadata in
        if Py.truthy_opt_time existing_modified
           && Py.truthy_opt_time new_modified
           && bool_decide (existing_modified = new_modified)
        then incr_skipped;;; ret Skip
        else
          let dropbox_content_hash := fm_content_hash file_metadata in
          if Py.truthy_opt_str dropbox_content_hash
             && bool_decide (metadata_content_hash existing
                             = dropbox_content_hash)
          then
            db_touch (touch_raises env) (f_id existing) new_modified;;;
            incr_skipped;;;
            ret Skip
          else ret Proceed
    | None => ret Proceed
    end
  else ret Proceed.

(** [dropbox_service.download_file(path)] *)
Definition dropbox_download (env : SyncEnv) (path : string)
  : M SyncState string :=
  fun s =>
    match download env with
    | Some file_content =>
        (Ok file_content,
         {| files := files s; blobs := blobs s; queue := queue s;
            downloaded := downloaded s ++ [path];
            files_queued := files_queued s;
            files_skipped := files_skipped s |})
    | None => (Raise (Exc "ApiError" path), s)
    end.

(** [blob_client.upload_blob(file_content, overwrite=True)] *)
Definition blob_upload (env : SyncEnv) (blob_name file_content : string)
  : M SyncState unit :=
  fun s =>
    if upload_raises env then (Raise (Exc "AzureError" blob_name), s)
    else (Ok tt,
          {| files := files s;
             blobs := <[blob_name := file_content]> (blobs s);
             queue := queue s; downloaded := downloaded s;
             files_queued := files_queued s;
             files_skipped := files_skipped s |}).

(** The names bound at module level of [routes/dropbox.py] (imports,
    [logger], [router] and the functions); each is bound to a module, a
    class or a function, never to a [str]. *)
Definition module_globals : list string :=
  ["os"; "logging"; "hashlib"; "Optional"; "datetime"; "APIRouter";
   "HTTPException"; "Depends"; "AsyncIOMotorClient"; "ObjectId";
   "SyncRequest"; "SyncResponse"; "DropboxFileResponse";
   "DropboxFileListResponse"; "DropboxService"; "QueueService";
   "BlobServiceClient"; "logger"; "router"; "get_database";
   "get_dropbox_service"; "get_queue_service"; "get_blob_service";
   "manual_sync"; "get_file_status"; "list_files"].

(** Reading a name that the function never assigns: it is looked up among
    the module's globals (no builtin is called [file_hash]) and raises
    [NameError] when it is not there.  A global, being no [str], would
    carry no hash. *)
Definition load_global (name : string) : M SyncState (option string) :=
  if bool_decide (name ∈ module_globals) then ret None
  else raise (Exc "NameError" ("name '" +:+ name +:+ "' is not defined")).

(** ["/".join(path.split("/")[:-1])] *)
Definition folder_of (path : string) : string :=
  let parts := Py.split "/" path in
  Py.join "/" (take (length parts - 1) parts).

(** The [$set] of [file_record] (lines 147-167) applied to a document. *)
Definition set_file_record (env : SyncEnv) (fm : FileMetadata)
           (file_type blob_url sha256_hash : string)
           (content_hash : option string) (d : FileDoc) : FileDoc :=
  {| f_id := f_id d;
     dropbox_path := fm_path_display fm;
     dropbox_file_id := fm_id fm;
     dropbox_rev := fm_rev fm;
     filename := fm_name fm;
     file_type := file_type;
     blob_url := blob_url;
     file_hash := sha256_hash;
     file_size := fm_size fm;
     user_id := "system";
     processing_status := "pending";
     chunk_count := 0;
     created_at := s_now env;
     updated_at := s_now env;
     dropbox_created_at := fm_modified fm;
     dropbox_modified_at := fm_server_modified fm;
     metadata_folder := folder_of (fm_path_display fm);
     metadata_content_hash := content_hash;
     markdown_blob_url := markdown_blob_url d;
     attempts := attempts d;
     last_error := last_error d |}.

(** A document holding nothing but its [_id]. *)
Definition fresh_doc (oid : string) : FileDoc :=
  {| f_id := oid; dropbox_path := ""; dropbox_file_id := "";
     dropbox_rev := None; filename := ""; file_type := ""; blob_url := "";
     file_hash := ""; file_size := 0; user_id := "";
     processing_status := ""; chunk_count := 0; created_at := 0;
     updated_at := 0; dropbox_created_at := None;
     dropbox_modified_at := None; metadata_folder := "";
     metadata_content_hash := None; markdown_blob_url := None;
     attempts := None; last_error := None |}.

Fixpoint update_by_dropbox_id (id : string) (f : FileDoc -> FileDoc)
         (c : list FileDoc) : option (list FileDoc) :=
  match c with
  | [] => None
  | d :: c' =>
      if bool_decide (dropbox_file_id d = id) then Some (f d :: c')
      else option_map (cons d) (update_by_dropbox_id id f c')
  end.

(** [update_one({"dropbox_file_id": id}, {"$set": file_record},
    upsert=True)]; the result is [result.upserted_id]. *)
Definition db_upsert (env : SyncEnv) (id : string)
           (setter : FileDoc -> FileDoc) : M SyncState (option string) :=
  fun s =>
    if upsert_raises env then (Raise mongo_down, s)
    else
      match update_by_dropbox_id id setter (files s) with
      | Some c => (Ok None, with_files c s)
      | None =>
          (Ok (Some (new_object_id env)),
           with_files (files s ++ [setter (fresh_doc (new_object_id env))])
                      s)
      end.

(** [QueueService.send_dropbox_processing_message]: [True] once the
    message is on the queue, [False] when sending raised. *)
Definition send_dropbox_processing_message (env : SyncEnv)
           (m : WorkMessage) : M SyncState bool :=
  fun s =>
    if send_ok env then
      (Ok true,
       {| files := files s; blobs := blobs s; queue := queue s ++ [m];
          downloaded := downloaded s; files_queued := files_queued s;
          files_skipped := files_skipped s |})
    else (Ok false, s).

(** Lines 83-201: the body of the [try] inside the loop. *)
Definition sync_file (env : SyncEnv) (force_reprocess : bool)
           (file_metadata : FileMetadata) : M SyncState unit :=
  let file_type := get_file_extension (fm_name file_metadata) in
  if negb (is_supported_file_type file_type) then incr_skipped
  else
    decision <- dedup_check env force_reprocess file_metadata;;
    match decision with
    | Skip => ret tt
    | Proceed =>
        file_content <-
          dropbox_download env (fm_path_display file_metadata);;
        let sha256_hash := sha256_hexdigest env file_content in
        let blob_name :=
          "dropbox/" +:+ sha256_hash +:+ "/" +:+ fm_name file_metadata in
        blob_upload env blob_name file_content;;;
        let blob_url := client_url env blob_name in
        (* "content_hash": file_hash *)
        content_hash <- load_global "file_hash";;
        upserted_id <-
          db_upsert env (fm_id file_metadata)
            (set_file_record env file_metadata file_type blob_url
                             sha256_hash content_hash);;
        file_id <-
          match upserted_id with
          | Some oid => ret oid
          | None =>
              existing <- db_find_one (refind_raises env)
                            (fm_id file_metadata);;
              match existing with
              | Some existing => ret (f_id existing)
              | None => raise (Exc "TypeError"
                                 "'NoneType' object is not subscriptable")
              end
          end;;
        success <-
          send_dropbox_processing_message env
            {| wm_message_type := "dropbox_file";
               wm_file_id := file_id;
               wm_dropbox_path := fm_path_display file_metadata;
               wm_dropbox_file_id := fm_id file_metadata;
               wm_blob_url := blob_url;
               wm_filename := fm_name file_metadata;
               wm_file_type := file_type;
               wm_user_id := "system";
               wm_timestamp := s_now env |};;
        if success then incr_queued else incr_skipped
    end.

(** One iteration of [for file_metadata in files], with its
    [except Exception]. *)
Definition sync_one (force_reprocess : bool)
           (item : FileMetadata * SyncEnv) : M SyncState unit :=
  try_except (sync_file (snd item) force_reprocess (fst item))
             (fun _ => incr_skipped).

Fixpoint sync_loop (force_reprocess : bool)
         (items : list (FileMetadata * SyncEnv)) : M SyncState unit :=
  match items with
  | [] => ret tt
  | item :: rest =>
      sync_one force_reprocess item;;; sync_loop force_reprocess rest
  end.

(** [manual_sync]: [listing] is the result of
    [dropbox_service.list_files] ([None] when it raised), each entry
    paired with the outcomes of the calls made for it.  A [Raise] result
    is the route's [HTTPException(500)]. *)
Definition manual_sync (force_reprocess : bool)
           (listing : option (list (FileMetadata * SyncEnv)))
  : M SyncState SyncResponse :=
  match listing with
  | None => raise (Exc "HTTPException" "500")
  | Some items =>
      Py.modify (fun s =>
        {| files := files s; blobs := blobs s; queue := queue s;
           downloaded := downloaded s; files_queued := 0;
           files_skipped := 0 |});;;
      sync_loop force_reprocess items;;;
      s <- Py.get;;
      ret {| sr_status := "success";
             sr_files_queued := files_queued s;
             sr_files_skipped := files_skipped s;
             sr_message :=
               "Queued " +:+ pretty (files_queued s)
               +:+ " files for processing, skipped "
               +:+ pretty (files_skipped s) +:+ " files" |}
  end.

End Sync.

(* ===================================================================== *)
(** ** Abbreviations and sample inputs used by the properties below *)
(* ===================================================================== *)



Definition sample_message_data : MessageData :=
  {| msg_file_id := Some "0123456789abcdef01234567";
     msg_blob_url := Some "https://acct.blob.core.windows.net/dropbox/a.pdf";
     msg_filename := Some "a.pdf";
     msg_file_type := Some "pdf";
     msg_dropbox_path := "/docs/a.pdf" |}.

(** The database once the record [oid] has been moved to "processing". *)
Definition marked (env : WorkerEnv) (oid : string) (db : Db) : Db :=
  {| dropbox_files :=
       fst (update_one oid (set_processing (now env)) (dropbox_files db));
     dropbox_chunks := dropbox_chunks db |}.

(** The database once the failure handler has written to the record. *)
Definition failed_with (env : WorkerEnv) (oid err : string) (db : Db) : Db :=
  {| dropbox_files :=
       fst (update_one oid (set_failed err (now env)) (dropbox_files db));
     dropbox_chunks := dropbox_chunks db |}.

(** The database once the record has been marked completed. *)
Definition completed_with (env : WorkerEnv) (oid url : string) (n : Z)
           (db : Db) : Db :=
  {| dropbox_files :=
       fst (update_one oid (set_completed url n (now env))
                       (dropbox_files db));
     dropbox_chunks := dropbox_chunks db |}.

(** A run that gets as far as chunking: the message is well formed, its
    record exists and is moved to "processing", the download succeeds
    within the retries, the converter yields the non-empty text
    [markdown], and the markdown upload yields the non-empty [url]. *)
Definition reaches_chunking (cfg : WorkerConfig) (env : WorkerEnv)
           (message : ServiceBusReceivedMessage) (db : Db)
           (file_id oid markdown url : string) : Prop :=
  (exists m b n t,
      body message = Some m
      /\ Worker.required_fields m = Some (file_id, b, n, t))
  /\ ObjectId file_id = Some oid
  /\ processing_update_raises env = false
  /\ is_Some (find_by_id oid (dropbox_files db))
  /\ Retry.returned
       (Retry.download_file_with_retry cfg (download_outcome env)) = true
  /\ Docling.convert_to_markdown env = Some markdown
  /\ Py.truthy_str markdown = true
  /\ Worker.upload_markdown_to_blob env file_id = Some url
  /\ Py.truthy_str url = true.

(** Fields of the record [oid] as a reader of the database sees them. *)
Definition status_of (oid : string) (db : Db) : option string :=
  processing_status <$> find_by_id oid (dropbox_files db).
Definition chunk_count_of (oid : string) (db : Db) : option Z :=
  chunk_count <$> find_by_id oid (dropbox_files db).
Definition attempts_of (oid : string) (db : Db) : option Z :=
  find_by_id oid (dropbox_files db) ≫= attempts.


(** A record as the sync route would leave it for [/docs/a.pdf]. *)
Definition sample_file : FileDoc :=
  {| f_id := "0123456789abcdef01234567";
     dropbox_path := "/docs/a.pdf"; dropbox_file_id := "id:a";
     dropbox_rev := Some "015f"; filename := "a.pdf"; file_type := "pdf";
     blob_url := "https://acct.blob.core.windows.net/dropbox/a.pdf";
     file_hash := "9f86d0"; file_size := 10240; user_id := "system";
     processing_status := "pending"; chunk_count := 0;
     created_at := 100; updated_at := 100;
     dropbox_created_at := Some 90; dropbox_modified_at := Some 95;
     metadata_folder := "/docs"; metadata_content_hash := Some "e3b0c4";
     markdown_blob_url := None; attempts := Some 0; last_error := None |}.

Definition sample_db : Db :=
  {| dropbox_files := [sample_file]; dropbox_chunks := [] |}.

(** Every external call succeeds: the first download attempt returns, the
    converter yields a two-paragraph document, the splitter returns its two
    paragraphs and the endpoint one embedding per text. *)
Definition healthy_env : WorkerEnv :=
  {| now := 200; mongo_error := "connection reset";
     processing_update_raises := false;
     download_outcome := fun _ => true;
     converter_available := true;
     docling_convert := Some "Intro

Body";
     blob_upload_raises := false;
     markdown_url := fun name => "https://blob/" +:+ name;
     split_text := fun _ => Some ["Intro"; "Body"];
     encoding := None;
     openai_client := true;
     embeddings_create :=
       fun texts => Some (map (fun _ => [1 # 2; 1 # 4]%Q) texts);
     insert_many_raises := false;
     completion_update_raises := false;
     failed_update_raises := false |}.

Definition sample_message : ServiceBusReceivedMessage :=
  {| body := Some sample_message_data; delivery_count := Some 1 |}.

(** A field of the file documents that none of the worker's three updates
    sets. *)
Definition untouched {A} (g : FileDoc -> A) : Prop :=
  (forall t d, g (set_processing t d) = g d)
  /\ (forall url n t d, g (set_completed url n t d) = g d)
  /\ (forall err t d, g (set_failed err t d) = g d).

(** A statement that leaves the field [g] of every file document as it
    was, whatever its outcome. *)
Definition keeps {A B} (g : FileDoc -> A) (m : M Db B) : Prop :=
  forall db r db',
    m db = (r, db') ->
    map g (dropbox_files db') = map g (dropbox_files db).




(** [assign_embeddings] described by position: the first chunks take the
    embeddings of [data] in order, the others stay as they are. *)
Fixpoint attach (data : list Embedding) (chunks : list Chunk) : list Chunk :=
  match chunks, data with
  | c :: chunks', e :: data' => set_embedding e c :: attach data' chunks'
  | _, _ => chunks
  end.

(** A piece of the splitter that survives [strip()]. *)
Definition nonblank (piece : string) : Prop :=
  Py.truthy_str (Py.strip piece) = true.



(** No chunk carries the key ["embedding"] yet. *)
Definition unembedded (chunks : list Chunk) : Prop :=
  Forall (fun c => embedding c = None) chunks.

(** The state after one more [files_skipped += 1]. *)
Definition skipped_once (s : SyncState) : SyncState :=
  {| files := files s; blobs := blobs s; queue := queue s;
     downloaded := downloaded s; files_queued := files_queued s;
     files_skipped := files_skipped s + 1 |}.

(** A statement of the sync route that puts nothing on the queue, does not
    count a file as queued, and neither adds a file document nor resets the
    status or chunk count of one. *)
Definition enqueues_nothing {B} (m : M SyncState B) : Prop :=
  forall s r s',
    m s = (r, s') ->
    queue s' = queue s
    /\ files_queued s' = files_queued s
    /\ map f_id (files s') = map f_id (files s)
    /\ map processing_status (files s') = map processing_status (files s).

(** Every call made for a listed file succeeds. *)
Definition sync_ok_env : SyncEnv :=
  {| s_now := 100; find_one_raises := false; touch_raises := false;
     download := Some "%PDF-1.7 ...";
     sha256_hexdigest := fun _ => "9f86d0";
     upload_raises := false;
     client_url := fun name => "https://blob/dropbox/" +:+ name;
     upsert_raises := false;
     new_object_id := "0123456789abcdef01234567";
     refind_raises := false;
     send_ok := true |}.

(** The listing entry of a 10 KB PDF at [/docs/a.pdf]. *)
Definition a_pdf : FileMetadata :=
  {| fm_id := "id:a"; fm_name := "a.pdf"; fm_path_display := "/docs/a.pdf";
     fm_size := 10240; fm_modified := Some 90; fm_server_modified := Some 95;
     fm_rev := Some "015f"; fm_content_hash := Some "e3b0c4" |}.

(** The same file after a later server-side modification, with the content
    hash [h] reported by Dropbox. *)
Definition a_pdf_touched (h : option string) : FileMetadata :=
  {| fm_id := "id:a"; fm_name := "a.pdf"; fm_path_display := "/docs/a.pdf";
     fm_size := 10240; fm_modified := Some 90; fm_server_modified := Some 120;
     fm_rev := Some "0160"; fm_content_hash := h |}.

(** [sample_file] with the stored content hash [h]. *)
Definition sample_file_hashed (h : option string) : FileDoc :=
  {| f_id := "0123456789abcdef01234567";
     dropbox_path := "/docs/a.pdf"; dropbox_file_id := "id:a";
     dropbox_rev := Some "015f"; filename := "a.pdf"; file_type := "pdf";
     blob_url := "https://acct.blob.core.windows.net/dropbox/a.pdf";
     file_hash := "9f86d0"; file_size := 10240; user_id := "system";
     processing_status := "completed"; chunk_count := 2;
     created_at := 100; updated_at := 100;
     dropbox_created_at := Some 90; dropbox_modified_at := Some 95;
     metadata_folder := "/docs"; metadata_content_hash := h;
     markdown_blob_url := None; attempts := Some 0; last_error := None |}.

(** Nothing stored, uploaded or queued yet. *)
Definition empty_state : SyncState :=
  {| files := []; blobs := ∅; queue := []; downloaded := [];
     files_queued := 0; files_skipped := 0 |}.

(** Only the given record is known. *)
Definition state_with (d : FileDoc) : SyncState :=
  {| files := [d]; blobs := ∅; queue := []; downloaded := [];
     files_queued := 0; files_skipped := 0 |}.

(* ===================================================================== *)
(** ** More of the worker: where a download comes from and where the
       markdown goes *)
(* ===================================================================== *)

Module Blob.

(** [c in s] for a single character. *)
Fixpoint has_char (c : ascii) (s : string) : bool :=
  match s with
  | EmptyString => false
  | String a s' => Ascii.eqb a c || has_char c s'
  end.

(** [l.index(x)]; [None] is the [ValueError]. *)
Fixpoint index (x : string) (l : list string) : option nat :=
  match l with
  | [] => None
  | y :: l' => if bool_decide (y = x) then Some 0%nat else S <$> index x l'
  end.

(** Lines 407-417 of [_download_from_blob_storage]: the blob name read
    off the URL. *)
Definition blob_name_of_url (container_name blob_url : string) : string :=
  let url_parts := Py.split "/" blob_url in
  let rest :=
    match index container_name url_parts with
    | Some container_index => drop (container_index + 1) url_parts
    | None => drop 4 url_parts
    end in
  List.hd EmptyString (Py.split "?" (Py.join "/" rest)).

(** What [_download_file] asks for: a blob of the configured container
    through the SDK, or the URL itself over HTTP. *)
Inductive Request :=
| download_blob (container blob : string)
| http_get (url : string).

(** [DropboxFileWorker._download_file]; [client] tells whether
    [self.blob_service_client] is set. *)
Definition _download_file (client : bool) (container_name blob_url : string)
  : Request :=
  if client && Py.contains blob_url "blob.core.windows.net"
  then download_blob container_name (blob_name_of_url container_name blob_url)
  else http_get blob_url.

(** [item.split('=', 1)] for an item that contains the separator: the text
    before its first occurrence and the text after it. *)
Fixpoint split_once (sep : ascii) (s : string) : string * string :=
  match s with
  | EmptyString => (EmptyString, EmptyString)
  | String a s' =>
      if Ascii.eqb a sep then (EmptyString, s')
      else (String a (fst (split_once sep s')), snd (split_once sep s'))
  end.

(** Lines 479-483 of [upload_markdown_to_blob]:
    [dict(item.split('=', 1) for item in conn.split(';') if '=' in item)]. *)
Definition connection_parts (connection_string : string)
  : gmap string string :=
  foldl (fun parts item =>
           if Py.contains item "="
           then <[fst (split_once "=" item) := snd (split_once "=" item)]>
                  parts
           else parts)
        ∅ (Py.split ";" connection_string).

(** Lines 478-500 of [upload_markdown_to_blob]: the URL that is returned
    for the uploaded markdown.  [sas_token] is the result of
    [generate_blob_sas] ([None] when anything in the inner [try] raises),
    [client_url] is [blob_client.url]. *)
Definition markdown_url (connection_string container_name
                         markdown_blob_name : string)
           (sas_token : option string) (client_url : string) : string :=
  match connection_parts connection_string !! "AccountName",
        connection_parts connection_string !! "AccountKey" with
  | Some account_name, Some account_key =>
      if Py.truthy_str account_name && Py.truthy_str account_key then
        match sas_token with
        | Some sas =>
            "https://" +:+ account_name +:+ ".blob.core.windows.net/"
            +:+ container_name +:+ "/" +:+ markdown_blob_name +:+ "?" +:+ sas
        | None => client_url
        end
      else client_url
  | _, _ => client_url
  end.

(** One [key=value] item of a connection string, and a whole one. *)
Definition connection_item (kv : string * string) : string :=
  fst kv +:+ "=" +:+ snd kv.
Definition connection_string_of (kvs : list (string * string)) : string :=
  Py.join ";" (map connection_item kvs).

(** An item whose key holds neither [;] nor [=] and whose value holds no
    [;] (it may hold [=], as base64 keys do). *)
Definition well_formed_item (kv : string * string) : Prop :=
  has_char ";" (fst kv) = false
  /\ has_char "=" (fst kv) = false
  /\ has_char ";" (snd kv) = false.

End Blob.

(* ===================================================================== *)
(** ** More of the backend: listing, the queue message, the status route *)
(* ===================================================================== *)

Module Listing.

(** An entry of a Dropbox folder listing: a [FileMetadata] with its
    fields, or anything else (a folder, a deleted entry). *)
Inductive Entry :=
| file_entry (fm : FileMetadata)
| other_entry (name : string).

(** The body of the loop over [result.entries] in
    [DropboxService.list_files]: the dictionary appended for an entry, if
    any.  [file_types = None] is the missing filter. *)
Definition listed (file_types : option (list string)) (entry : Entry)
  : option FileMetadata :=
  match entry with
  | other_entry _ => None
  | file_entry fm =>
      match file_types with
      | Some (t :: ts) =>
          let file_ext :=
            if Py.contains (fm_name fm) "."
            then Py.lower (List.last (Py.split "." (fm_name fm)) EmptyString)
            else EmptyString in
          if bool_decide (file_ext ∈ t :: ts) then Some fm else None
      | _ => Some fm
      end
  end.

(** [DropboxService.list_files]: [first] is the result of
    [files_list_folder], [more] the results of the calls of
    [files_list_folder_continue] made while [has_more] holds; a [None]
    among them is an [ApiError], which the method re-raises. *)
Fixpoint collect (file_types : option (list string))
         (pages : list (option (list Entry))) : option (list FileMetadata) :=
  match pages with
  | [] => Some []
  | None :: _ => None
  | Some entries :: rest =>
      match collect file_types rest with
      | Some files => Some (omap (listed file_types) entries ++ files)
      | None => None
      end
  end.

Definition list_files (first : option (list Entry))
           (more : list (option (list Entry)))
           (file_types : option (list string)) : option (list FileMetadata) :=
  collect file_types (first :: more).

End Listing.

Module Queue.

(** The JSON values that occur in a queue message. *)
Inductive json :=
| JStr (s : string)
| JNull
| JObj (fields : list (string * string)).

(** [message_body] of [QueueService.send_dropbox_processing_message];
    [timestamp] is [datetime.utcnow().isoformat()]. *)
Definition message_body
           (file_id dropbox_path dropbox_file_id blob_url filename file_type
            user_id : string)
           (additional_metadata : option (list (string * string)))
           (timestamp : string) : gmap string json :=
  <["message_type" := JStr "dropbox_file"]>
    (<["file_id" := JStr file_id]>
       (<["dropbox_path" := JStr dropbox_path]>
          (<["dropbox_file_id" := JStr dropbox_file_id]>
             (<["blob_url" := JStr blob_url]>
                (<["filename" := JStr filename]>
                   (<["file_type" := JStr file_type]>
                      (<["user_id" := JStr user_id]>
                         (<["metadata" :=
                              JObj (match additional_metadata with
                                    | Some (kv :: kvs) => kv :: kvs
                                    | _ => []
                                    end)]>
                            (<["timestamp" := JStr timestamp]> ∅))))))))).

(** [message_data.get(key)] for a field the worker uses as text: [None]
    for a missing key or [null].  An object in such a place is not a
    [MessageData]; it makes the reading undefined here. *)
Definition get_text (message_data : gmap string json) (key : string)
  : option (option string) :=
  match message_data !! key with
  | None => Some None
  | Some JNull => Some None
  | Some (JStr s) => Some (Some s)
  | Some (JObj _) => None
  end.

(** [message_data.get("dropbox_path", "")], which [MessageData] keeps as
    a text: the default applies to a missing key only. *)
Definition get_path (message_data : gmap string json) : option string :=
  match message_data !! "dropbox_path" with
  | None => Some EmptyString
  | Some (JStr s) => Some s
  | Some _ => None
  end.

(** Lines 554-558 of [process_dropbox_file]: the five fields read from the
    decoded body. *)
Definition message_fields (message_data : gmap string json)
  : option MessageData :=
  match get_text message_data "file_id", get_text message_data "blob_url",
        get_text message_data "filename", get_text message_data "file_type",
        get_path message_data with
  | Some file_id, Some blob_url, Some filename, Some file_type,
    Some dropbox_path =>
      Some {| msg_file_id := file_id; msg_blob_url := blob_url;
              msg_filename := filename; msg_file_type := file_type;
              msg_dropbox_path := dropbox_path |}
  | _, _, _, _, _ => None
  end.

End Queue.

Module Routes.

(** [DropboxFileResponse] *)
Record DropboxFileResponse := {
  r_id : string;
  r_dropbox_path : string;
  r_filename : string;
  r_file_type : string;
  r_processing_status : string;
  r_chunk_count : Z;
  r_file_size : Z;
  r_blob_url : option string;
  r_markdown_blob_url : option string;
  r_created_at : Z;
  r_updated_at : Z
}.

Definition response_of (file : FileDoc) : DropboxFileResponse :=
  {| r_id := f_id file;
     r_dropbox_path := dropbox_path file;
     r_filename := filename file;
     r_file_type := file_type file;
     r_processing_status := processing_status file;
     r_chunk_count := chunk_count file;
     r_file_size := file_size file;
     r_blob_url := Some (blob_url file);
     r_markdown_blob_url := markdown_blob_url file;
     r_created_at := created_at file;
     r_updated_at := updated_at file |}.

(** An [HTTPException] with its status code. *)
Definition http_error (status : string) : exc := Exc "HTTPException" status.

(** [get_file_status]: the route of [GET /api/dropbox/files/{file_id}].
    [find_raises] tells whether [find_one] raises. *)
Definition get_file_status (find_raises : bool) (file_id : string)
  : M (list FileDoc) DropboxFileResponse :=
  try_except
    (file <-
       (fun c =>
          match ObjectId file_id with
          | None => (Raise (Exc "InvalidId" file_id), c)
          | Some oid =>
              if find_raises
              then (Raise (Exc "PyMongoError" "database unavailable"), c)
              else (Ok (find_by_id oid c), c)
          end);;
     match file with
     | None => raise (http_error "404")
     | Some file => ret (response_of file)
     end)
    (fun _ => raise (http_error "500")).

End Routes.

(* ===================================================================== *)
(** ** Further abbreviations *)
(* ===================================================================== *)


(** A settlement that takes the message out of the active queue. *)
Definition leaves_queue (r : Worker.Resolution) : bool :=
  match r with
  | Worker.abandon_message => false
  | _ => true
  end.

(** The file documents other than the one with id [oid]. *)
Definition others (oid : string) (c : list FileDoc) : list FileDoc :=
  List.filter (fun d => negb (bool_decide (f_id d = oid))) c.

(** The chunk documents built during a run for the text [markdown]. *)
Definition new_documents (env : WorkerEnv) (oid markdown : string)
  : list ChunkDoc :=
  Worker.document_chunks env oid
    (Docling.generate_embeddings env (Docling.chunk_markdown env markdown)).

(** The state of [manual_sync] with both counters at zero. *)
Definition counters_reset (s : SyncState) : SyncState :=
  {| files := files s; blobs := blobs s; queue := queue s;
     downloaded := downloaded s; files_queued := 0; files_skipped := 0 |}.

(** The database with further chunk documents appended. *)
Definition with_documents (docs : list ChunkDoc) (db : Db) : Db :=
  {| dropbox_files := dropbox_files db;
     dropbox_chunks := dropbox_chunks db ++ docs |}.

(** A file document, unless it is the one with id [oid]. *)
Definition unless_id (oid : string) (d : FileDoc) : option FileDoc :=
  if bool_decide (f_id d = oid) then None else Some d.

(** How many listed files [manual_sync] has counted so far. *)
Definition counted (s : SyncState) : Z := files_queued s + files_skipped s.

(** The state after a download of [path] and the upload of [content] under
    the blob name [key]. *)
Definition with_blob (path key content : string) (s : SyncState)
  : SyncState :=
  {| files := files s; blobs := <[key := content]> (blobs s);
     queue := queue s; downloaded := downloaded s ++ [path];
     files_queued := files_queued s; files_skipped := files_skipped s |}.



(** A folder listing in two pages. *)
Definition named (name : string) : FileMetadata :=
  {| fm_id := "id:" +:+ name; fm_name := name;
     fm_path_display := "/docs/" +:+ name; fm_size := 10;
     fm_modified := Some 1; fm_server_modified := Some 2;
     fm_rev := Some "r1"; fm_content_hash := None |}.

Definition sample_pages : list (option (list Listing.Entry)) :=
  [Some [Listing.file_entry (named "a.pdf");
         Listing.other_entry "archive";
         Listing.file_entry (named "B.PDF")];
   Some [Listing.file_entry (named "notes.txt");
         Listing.file_entry (named "README")]].

(* ===================================================================== *)
(** * Properties *)
(* ===================================================================== *)

(** ** Download retries *)

Module RetryFacts.
Import Retry.

Section Loop.
Variable cfg : WorkerConfig.
Variable outcome : nat -> bool.







End Loop.


End RetryFacts.




(** ** Settling a failed message *)

Module ConsumerFacts.
Import Worker.



End ConsumerFacts.



(** ** The database operations *)

Module DbFacts.

Lemma update_one_find fid f c :
  (forall d, f_id (f d) = f_id d) ->
  find_by_id fid (fst (update_one fid f c)) = f <$> find_by_id fid c.
Proof.
  intros Hid. unfold find_by_id.
  induction c as [|d c IH]; [reflexivity|].
  cbn [update_one List.find].
  destruct (bool_decide (f_id d = fid)) eqn:Hd.
  - cbn. rewrite Hid, Hd. reflexivity.
  - destruct (update_one fid f c) as [c' n] eqn:Hc. cbn in *.
    rewrite Hd. exact IH.
Qed.

Lemma update_one_matched fid f c :
  is_Some (find_by_id fid c) -> snd (update_one fid f c) = 1.
Proof.
  unfold find_by_id. induction c as [|d c IH]; cbn [update_one List.find].
  - intros [? [=]].
  - destruct (bool_decide (f_id d = fid)); [reflexivity|].
    intros H. destruct (update_one fid f c). cbn in *. auto.
Qed.

Lemma update_one_unmatched fid f c :
  find_by_id fid c = None -> update_one fid f c = (c, 0).
Proof.
  unfold find_by_id. induction c as [|d c IH]; cbn [update_one List.find].
  - reflexivity.
  - destruct (bool_decide (f_id d = fid)); [discriminate|].
    intros H. rewrite (IH H). reflexivity.
Qed.

(** A field that the update does not set keeps its value in every
    document. *)
Lemma update_one_keeps {A} (g : FileDoc -> A) fid f c :
  (forall d, g (f d) = g d) ->
  map g (fst (update_one fid f c)) = map g c.
Proof.
  intros Hg. induction c as [|d c IH]; [reflexivity|].
  cbn [update_one].
  destruct (bool_decide (f_id d = fid)).
  - cbn. rewrite Hg. reflexivity.
  - destruct (update_one fid f c). cbn in *. rewrite IH. reflexivity.
Qed.

Lemma db_eta db :
  {| dropbox_files := dropbox_files db;
     dropbox_chunks := dropbox_chunks db |} = db.
Proof. destruct db. reflexivity. Qed.

End DbFacts.

(** ** One run of [process_dropbox_file] *)

Module WorkerFacts.
Import Docling Worker DbFacts.

Lemma files_update_one_ok env oid f db :
  files_update_one false env oid f db =
  (Ok (snd (update_one oid f (dropbox_files db))),
   {| dropbox_files := fst (update_one oid f (dropbox_files db));
      dropbox_chunks := dropbox_chunks db |}).
Proof.
  unfold files_update_one. destruct (update_one oid f (dropbox_files db)).
  reflexivity.
Qed.

Lemma files_update_one_raises env oid f db :
  files_update_one true env oid f db
  = (Raise (Exc "PyMongoError" (mongo_error env)), db).
Proof. reflexivity. Qed.

(** Moving a record to "processing" succeeds exactly when the id is well
    formed, the driver does not raise and the record exists; otherwise the
    database is left as it was. *)
Lemma mark_processing_found env file_id oid db :
  ObjectId file_id = Some oid ->
  processing_update_raises env = false ->
  is_Some (find_by_id oid (dropbox_files db)) ->
  mark_processing env file_id db = (Ok true, marked env oid db).
Proof.
  intros Hoid Hraise Hfound. unfold mark_processing, try_except, bind.
  rewrite Hoid, Hraise, files_update_one_ok.
  rewrite update_one_matched by exact Hfound. reflexivity.
Qed.

Lemma mark_processing_cases env file_id db :
  (exists oid,
      ObjectId file_id = Some oid
      /\ processing_update_raises env = false
      /\ is_Some (find_by_id oid (dropbox_files db))
      /\ mark_processing env file_id db = (Ok true, marked env oid db))
  \/ mark_processing env file_id db = (Ok false, db).
Proof.
  destruct (ObjectId file_id) as [oid|] eqn:Hoid.
  2: { right. unfold mark_processing, try_except. rewrite Hoid.
       reflexivity. }
  destruct (processing_update_raises env) eqn:Hraise.
  { right. unfold mark_processing, try_except, bind. rewrite Hoid, Hraise.
    reflexivity. }
  destruct (find_by_id oid (dropbox_files db)) as [d|] eqn:Hfind.
  - left. exists oid. repeat split; [rewrite Hfind; eauto|].
    apply mark_processing_found; [assumption..|].
    rewrite Hfind. eauto.
  - right. unfold mark_processing, try_except, bind.
    rewrite Hoid, Hraise, files_update_one_ok.
    rewrite (update_one_unmatched _ _ _ Hfind). cbn.
    rewrite db_eta. reflexivity.
Qed.

(** What the failure handler leaves behind. *)
Lemma on_failure_run env oid e db :
  on_failure env oid e db =
  (Ok false,
   if failed_update_raises env then db
   else failed_with env oid (exc_msg e) db).
Proof.
  unfold on_failure, try_except, bind.
  destruct (failed_update_raises env).
  - reflexivity.
  - rewrite files_update_one_ok. reflexivity.
Qed.

(** A run that gets as far as chunking is the persist stage, run on the
    marked database under the failure handler. *)
Lemma process_reaches_chunking cfg env message db file_id oid md url :
  reaches_chunking cfg env message db file_id oid md url ->
  process_dropbox_file cfg env message db =
  try_except (persist env oid url (chunk_markdown env md))
             (on_failure env oid) (marked env oid db).
Proof.
  intros ([m [b [n [t [Hbody Hreq]]]]] & Hoid & Hraise & Hfound & Hdl
          & Hconv & Hmd & Hup & Hurl).
  unfold process_dropbox_file. rewrite Hbody, Hreq.
  unfold bind at 1.
  rewrite (mark_processing_found env file_id oid db Hoid Hraise Hfound).
  rewrite Hoid. cbn [from_option id].
  unfold try_except, pipeline, bind.
  rewrite Hdl. cbn [ret]. rewrite Hconv, Hmd. cbn [ret].
  rewrite Hup, Hurl. cbn [ret]. reflexivity.
Qed.

End WorkerFacts.

(** ** Fields the worker never writes *)

Module FrameFacts.
Import Docling Worker DbFacts.

Section Keeps.
Context {A : Type} (g : FileDoc -> A).

Lemma keeps_ret {B} (b : B) : keeps g (Py.ret b).
Proof. intros db r db' [= _ <-]. reflexivity. Qed.

Lemma keeps_raise {B} e : keeps g (@Py.raise Db B e).
Proof. intros db r db' [= _ <-]. reflexivity. Qed.

Lemma keeps_bind {B C} (m : M Db B) (k : B -> M Db C) :
  keeps g m -> (forall b, keeps g (k b)) -> keeps g (Py.bind m k).
Proof.
  intros Hm Hk db r db'. unfold Py.bind.
  destruct (m db) as [[b|e] db1] eqn:Hrun.
  - intros Hrest. rewrite (Hk b _ _ _ Hrest). eapply Hm, Hrun.
  - intros [= _ <-]. eapply Hm, Hrun.
Qed.

Lemma keeps_try_except {B} (m : M Db B) h :
  keeps g m -> (forall e, keeps g (h e)) -> keeps g (Py.try_except m h).
Proof.
  intros Hm Hh db r db'. unfold Py.try_except.
  destruct (m db) as [[b|e] db1] eqn:Hrun.
  - intros [= _ <-]. eapply Hm, Hrun.
  - intros Hrest. rewrite (Hh e _ _ _ Hrest). eapply Hm, Hrun.
Qed.

Lemma keeps_files_update_one raises env oid f :
  (forall d, g (f d) = g d) -> keeps g (files_update_one raises env oid f).
Proof.
  intros Hf db r db'. unfold files_update_one.
  destruct raises; [intros [= _ <-]; reflexivity|].
  pose proof (update_one_keeps g oid f (dropbox_files db) Hf) as Hkeep.
  destruct (update_one oid f (dropbox_files db)).
  intros [= _ <-]. exact Hkeep.
Qed.

Lemma keeps_insert_many env docs : keeps g (chunks_insert_many env docs).
Proof.
  intros db r db'. unfold chunks_insert_many.
  destruct (insert_many_raises env); intros [= _ <-]; reflexivity.
Qed.

Hypothesis Hg : untouched g.

Lemma keeps_mark_processing env file_id :
  keeps g (mark_processing env file_id).
Proof.
  unfold mark_processing. apply keeps_try_except.
  - destruct (ObjectId file_id); [|apply keeps_raise].
    apply keeps_bind; [|intros; apply keeps_ret].
    apply keeps_files_update_one, Hg.
  - intros; apply keeps_ret.
Qed.

Lemma keeps_persist env oid url chunks : keeps g (persist env oid url chunks).
Proof.
  unfold persist. destruct chunks as [|c chunks].
  - apply keeps_bind; [|intros; apply keeps_ret].
    apply keeps_files_update_one, Hg.
  - cbv zeta. apply keeps_bind.
    + destruct (document_chunks _ _ _);
        [apply keeps_ret|apply keeps_insert_many].
    + intros _. apply keeps_bind; [|intros; apply keeps_ret].
      apply keeps_files_update_one, Hg.
Qed.

Lemma keeps_pipeline cfg env file_id oid :
  keeps g (pipeline cfg env file_id oid).
Proof.
  unfold pipeline. apply keeps_bind.
  { destruct (Retry.returned _); [apply keeps_ret|apply keeps_raise]. }
  intros _. apply keeps_bind.
  { destruct (convert_to_markdown env) as [md|]; [|apply keeps_raise].
    destruct (Py.truthy_str md); [apply keeps_ret|apply keeps_raise]. }
  intros md. apply keeps_bind.
  { destruct (upload_markdown_to_blob env file_id) as [url|];
      [|apply keeps_raise].
    destruct (Py.truthy_str url); [apply keeps_ret|apply keeps_raise]. }
  intros url. apply keeps_persist.
Qed.

Lemma keeps_on_failure env oid e : keeps g (on_failure env oid e).
Proof.
  unfold on_failure. apply keeps_bind; [|intros; apply keeps_ret].
  apply keeps_try_except; [|intros; apply keeps_ret].
  apply keeps_bind; [|intros; apply keeps_ret].
  apply keeps_files_update_one, Hg.
Qed.

Lemma keeps_process cfg env message :
  keeps g (process_dropbox_file cfg env message).
Proof.
  unfold process_dropbox_file.
  destruct (body message) as [m|]; [|apply keeps_ret].
  destruct (required_fields m) as [[[[file_id b] n] t]|]; [|apply keeps_ret].
  apply keeps_bind; [apply keeps_mark_processing|].
  intros [|]; [|apply keeps_ret].
  apply keeps_try_except; [apply keeps_pipeline|].
  intros e. apply keeps_on_failure.
Qed.

End Keeps.

Lemma untouched_attempts : untouched attempts.
Proof. repeat split. Qed.



End FrameFacts.

(** ** What a reader of the database sees after a run *)

Module StatusFacts.
Import Docling Worker DbFacts WorkerFacts FrameFacts.

Lemma found_after_marked env oid db :
  is_Some (find_by_id oid (dropbox_files db)) ->
  is_Some (find_by_id oid (dropbox_files (marked env oid db))).
Proof.
  intros [d Hd]. unfold marked. cbn [dropbox_files].
  rewrite update_one_find by reflexivity. rewrite Hd. eauto.
Qed.

Lemma status_marked env oid db :
  is_Some (find_by_id oid (dropbox_files db)) ->
  status_of oid (marked env oid db) = Some "processing".
Proof.
  intros [d Hd]. unfold status_of, marked. cbn [dropbox_files].
  rewrite update_one_find by reflexivity. rewrite Hd. reflexivity.
Qed.


Lemma status_completed_with env oid url n db :
  is_Some (find_by_id oid (dropbox_files db)) ->
  status_of oid (completed_with env oid url n db) = Some "completed"
  /\ chunk_count_of oid (completed_with env oid url n db) = Some n.
Proof.
  intros [d Hd]. unfold status_of, chunk_count_of, completed_with.
  cbn [dropbox_files]. rewrite update_one_find by reflexivity.
  rewrite Hd. split; reflexivity.
Qed.




End StatusFacts.









(** C8, as stated, fails: moving the record to "processing" leaves
    [processing_metadata.attempts] at its old value (0 here, not 1), and it
    is still 0 when the whole run has completed. *)
Lemma attempts_not_incremented :
  let oid := "0123456789abcdef01234567" in
  let entered := snd (Worker.mark_processing healthy_env oid sample_db) in
  let done :=
    snd (Worker.process_dropbox_file default_config healthy_env
                                     sample_message sample_db) in
  attempts_of oid sample_db = Some 0
  /\ status_of oid entered = Some "processing"
  /\ attempts_of oid entered = Some 0
  /\ status_of oid done = Some "completed"
  /\ attempts_of oid done = Some 0.
Proof. cbv zeta. repeat split; reflexivity. Qed.

(** C8 (amended).  Entering processing sets [processing_status] to
    "processing" (and [updated_at]); neither that update nor any other step
    of [process_dropbox_file] changes [processing_metadata.attempts] of any
    record. *)
Theorem attempts_never_written
        (cfg : WorkerConfig) (env : WorkerEnv)
        (message : ServiceBusReceivedMessage) (db : Db) :
  map attempts
      (dropbox_files (snd (Worker.process_dropbox_file cfg env message db)))
  = map attempts (dropbox_files db)
  /\ (forall file_id,
         map attempts
             (dropbox_files (snd (Worker.mark_processing env file_id db)))
         = map attempts (dropbox_files db))
  /\ (forall file_id oid,
         ObjectId file_id = Some oid ->
         processing_update_raises env = false ->
         is_Some (find_by_id oid (dropbox_files db)) ->
         status_of oid (snd (Worker.mark_processing env file_id db))
         = Some "processing").
Proof.
  split; [|split].
  - eapply (FrameFacts.keeps_process attempts FrameFacts.untouched_attempts).
    apply surjective_pairing.
  - intros file_id.
    eapply (FrameFacts.keeps_mark_processing attempts
              FrameFacts.untouched_attempts).
    apply surjective_pairing.
  - intros file_id oid Hoid Hraise Hfound.
    rewrite (WorkerFacts.mark_processing_found env file_id oid db Hoid Hraise
               Hfound).
    apply StatusFacts.status_marked, Hfound.
Qed.

(** ** Chunking and embedding *)

Module ChunkFacts.
Import Docling Worker.

Lemma assign_out_of_range data : forall idx chunks,
  (length chunks <= idx)%nat -> assign_embeddings idx data chunks = chunks.
Proof.
  induction data as [|e data IH]; intros idx chunks Hlen; [reflexivity|].
  cbn [assign_embeddings].
  destruct (Nat.ltb_spec idx (length chunks)); [lia|].
  apply IH. lia.
Qed.

Lemma assign_app data : forall pre chunks,
  assign_embeddings (length pre) data (pre ++ chunks)
  = pre ++ attach data chunks.
Proof.
  induction data as [|e data IH]; intros pre chunks.
  { destruct chunks; reflexivity. }
  destruct chunks as [|c chunks].
  - cbn [attach]. apply assign_out_of_range.
    rewrite length_app. cbn. lia.
  - cbn [assign_embeddings attach].
    destruct (Nat.ltb_spec (length pre) (length (pre ++ c :: chunks)))
      as [_|Hge]; [|rewrite length_app in Hge; cbn in Hge; lia].
    replace (alter (set_embedding e) (length pre) (pre ++ c :: chunks))
      with ((pre ++ [set_embedding e c]) ++ chunks).
    + replace (S (length pre)) with (length (pre ++ [set_embedding e c]))
        by (rewrite length_app; cbn; lia).
      rewrite IH, <- app_assoc. reflexivity.
    + rewrite <- app_assoc. cbn.
      induction pre as [|p pre IHpre]; cbn; [reflexivity|].
      f_equal. exact IHpre.
Qed.

Lemma assign_attach data chunks :
  assign_embeddings 0 data chunks = attach data chunks.
Proof. exact (assign_app data [] chunks). Qed.

Lemma chunk_loop_unembedded env pieces : forall idx,
  unembedded (chunk_loop env idx pieces).
Proof.
  induction pieces as [|p pieces IH]; intros idx; cbn [chunk_loop].
  - constructor.
  - destruct (Py.truthy_str (Py.strip p));
      [constructor; [reflexivity|]|]; apply IH.
Qed.

Lemma chunk_markdown_unembedded env md : unembedded (chunk_markdown env md).
Proof.
  unfold chunk_markdown. destruct (split_text env md).
  - apply chunk_loop_unembedded.
  - constructor.
Qed.

(** Chunks without an embedding yield no document. *)
Lemma documents_of_unembedded env oid chunks :
  unembedded chunks -> document_chunks env oid chunks = [].
Proof.
  unfold document_chunks.
  induction 1 as [|c chunks Hc _ IH]; [reflexivity|].
  cbn. rewrite Hc. exact IH.
Qed.

(** After the embeddings of [data] have been attached, the documents are
    the chunks that received one, in order. *)
Lemma documents_of_attach env oid data : forall chunks,
  unembedded chunks ->
  document_chunks env oid (attach data chunks)
  = zip_with (doc_chunk env oid) chunks data.
Proof.
  induction data as [|e data IH]; intros chunks Hnone.
  - destruct chunks; cbn [attach];
      rewrite documents_of_unembedded by assumption;
      reflexivity.
  - destruct chunks as [|c chunks]; [reflexivity|].
    inversion Hnone as [|? ? Hc Hrest]; subst.
    cbn [attach zip_with]. unfold document_chunks in *. cbn.
    rewrite IH by assumption. reflexivity.
Qed.

(** The three ways in which [generate_embeddings] adds nothing. *)
Lemma generate_embeddings_unavailable env chunks :
  openai_client env = false
  \/ embeddings_create env (map content chunks) = None ->
  generate_embeddings env chunks = chunks.
Proof.
  unfold generate_embeddings. intros [Hc|Hr].
  - rewrite Hc. reflexivity.
  - destruct (negb (openai_client env)); [reflexivity|].
    destruct (map content chunks) eqn:Hm; [reflexivity|].
    rewrite Hr. reflexivity.
Qed.

Lemma generate_embeddings_response env chunks data :
  openai_client env = true ->
  embeddings_create env (map content chunks) = Some data ->
  generate_embeddings env chunks = attach data chunks.
Proof.
  unfold generate_embeddings. intros -> Hr. cbn [negb].
  destruct chunks as [|c chunks]; [destruct data; reflexivity|].
  cbn [map] in *. rewrite Hr. apply assign_attach.
Qed.

(** Without blank pieces the loop numbers the chunks consecutively. *)
Lemma chunk_loop_indices env pieces : forall idx,
  Forall nonblank pieces ->
  map chunk_index (chunk_loop env idx pieces) = seq idx (length pieces).
Proof.
  induction pieces as [|p pieces IH]; intros idx Hall; [reflexivity|].
  inversion Hall as [|? ? Hp Hrest]; subst.
  cbn [chunk_loop]. rewrite Hp. cbn. f_equal. apply IH, Hrest.
Qed.

Lemma zip_indices env oid : forall chunks data,
  map cd_chunk_index (zip_with (doc_chunk env oid) chunks data)
  = take (length data) (map chunk_index chunks).
Proof.
  induction chunks as [|c chunks IH]; intros [|e data]; cbn;
    try reflexivity.
  f_equal. apply IH.
Qed.

End ChunkFacts.

Module PersistFacts.
Import Docling Worker DbFacts WorkerFacts.


End PersistFacts.





(** When the splitter returns no blank piece, the chunks of
    [chunk_markdown] are numbered 0, 1, 2, ... and the persisted documents,
    being the chunks that received an embedding, carry exactly the indices
    0 .. n-1 for the n documents inserted. *)
Theorem chunk_indices_contiguous_without_blank_pieces
        (env : WorkerEnv) (oid markdown : string) (pieces : list string) :
  split_text env markdown = Some pieces ->
  Forall nonblank pieces ->
  let chunks := Docling.chunk_markdown env markdown in
  let docs :=
    Worker.document_chunks env oid (Docling.generate_embeddings env chunks) in
  map chunk_index chunks = seq 0 (length pieces)
  /\ map cd_chunk_index docs = seq 0 (length docs)
  /\ (list_to_set (map cd_chunk_index docs) : gset nat)
     = set_seq 0 (length docs).
Proof.
  intros Hsplit Hall. cbv zeta.
  assert (Hchunks : map chunk_index (Docling.chunk_markdown env markdown)
                    = seq 0 (length pieces)).
  { unfold Docling.chunk_markdown. rewrite Hsplit.
    apply ChunkFacts.chunk_loop_indices, Hall. }
  assert (Hdocs :
    map cd_chunk_index
        (Worker.document_chunks env oid
           (Docling.generate_embeddings env
              (Docling.chunk_markdown env markdown)))
    = seq 0 (length
               (Worker.document_chunks env oid
                  (Docling.generate_embeddings env
                     (Docling.chunk_markdown env markdown))))).
  { destruct (openai_client env) eqn:Hclient;
      [destruct (embeddings_create env
                   (map content (Docling.chunk_markdown env markdown)))
         as [data|] eqn:Hresp|].
    - rewrite (ChunkFacts.generate_embeddings_response _ _ _ Hclient Hresp).
      rewrite ChunkFacts.documents_of_attach
        by apply ChunkFacts.chunk_markdown_unembedded.
      rewrite ChunkFacts.zip_indices, Hchunks.
      rewrite length_zip_with, take_seq.
      f_equal.
      rewrite <- (length_map chunk_index), Hchunks, length_seq. lia.
    - rewrite ChunkFacts.generate_embeddings_unavailable by (right; exact Hresp).
      rewrite ChunkFacts.documents_of_unembedded
        by apply ChunkFacts.chunk_markdown_unembedded.
      reflexivity.
    - rewrite ChunkFacts.generate_embeddings_unavailable by (left; exact Hclient).
      rewrite ChunkFacts.documents_of_unembedded
        by apply ChunkFacts.chunk_markdown_unembedded.
      reflexivity. }
  split; [exact Hchunks|]. split; [exact Hdocs|].
  rewrite Hdocs. apply set_eq. intros x.
  rewrite elem_of_list_to_set, elem_of_set_seq, elem_of_seq. lia.
Qed.

(** Two paragraphs, two embeddings: indices 0 and 1. *)
Lemma chunk_indices_contiguous_witness :
  map cd_chunk_index
      (Worker.document_chunks healthy_env "0123456789abcdef01234567"
         (Docling.generate_embeddings healthy_env
            (Docling.chunk_markdown healthy_env "Intro

Body")))
  = [0; 1]%nat.
Proof.
  refine (proj1 (proj2 (chunk_indices_contiguous_without_blank_pieces
                          healthy_env "0123456789abcdef01234567"
                          "Intro

Body" ["Intro"; "Body"] eq_refl _))).
  repeat constructor.
Defined.

(** ** The sync route *)

Module SyncFacts.
Import DropboxService Sync DbFacts.

(** [file_hash] is bound nowhere: reading it raises. *)
Lemma file_hash_unbound s :
  load_global "file_hash" s
  = (Raise (Exc "NameError" "name 'file_hash' is not defined"), s).
Proof. reflexivity. Qed.

Lemma set_modified_only m d :
  set_modified (dropbox_modified_at d) (set_modified m d) = d.
Proof. destruct d. reflexivity. Qed.

Lemma db_find_one_ok id s :
  db_find_one false id s
  = (Ok (List.find (fun d => bool_decide (dropbox_file_id d = id)) (files s)),
     s).
Proof. reflexivity. Qed.

Lemma quiet_ret {B} (b : B) : enqueues_nothing (Py.ret b).
Proof. intros s r s' [= _ <-]. repeat split. Qed.

Lemma quiet_raise {B} e : enqueues_nothing (@Py.raise SyncState B e).
Proof. intros s r s' [= _ <-]. repeat split. Qed.

Lemma quiet_bind {B C} (m : M SyncState B) (k : B -> M SyncState C) :
  enqueues_nothing m -> (forall b, enqueues_nothing (k b)) ->
  enqueues_nothing (Py.bind m k).
Proof.
  intros Hm Hk s r s'. unfold Py.bind.
  destruct (m s) as [[b|e] s1] eqn:Hrun.
  - intros Hrest.
    destruct (Hm _ _ _ Hrun) as (Hq & Hn & Hi & Hs).
    destruct (Hk b _ _ _ Hrest) as (Hq' & Hn' & Hi' & Hs').
    repeat split; congruence.
  - intros [= _ <-]. eapply Hm, Hrun.
Qed.

(** What follows a statement that always raises is never run. *)
Lemma quiet_bind_raises {B C} (m : M SyncState B) (k : B -> M SyncState C) :
  (forall s, exists e, m s = (Raise e, s)) ->
  enqueues_nothing (Py.bind m k).
Proof.
  intros Hm s r s'. unfold Py.bind.
  destruct (Hm s) as [e ->]. intros [= _ <-]. repeat split.
Qed.

Lemma quiet_try_except {B} (m : M SyncState B) h :
  enqueues_nothing m -> (forall e, enqueues_nothing (h e)) ->
  enqueues_nothing (Py.try_except m h).
Proof.
  intros Hm Hh s r s'. unfold Py.try_except.
  destruct (m s) as [[b|e] s1] eqn:Hrun.
  - intros [= _ <-]. eapply Hm, Hrun.
  - intros Hrest.
    destruct (Hm _ _ _ Hrun) as (Hq & Hn & Hi & Hs).
    destruct (Hh e _ _ _ Hrest) as (Hq' & Hn' & Hi' & Hs').
    repeat split; congruence.
Qed.

Lemma quiet_incr_skipped : enqueues_nothing incr_skipped.
Proof. intros s r s' [= _ <-]. repeat split. Qed.

Lemma quiet_db_find_one raises id : enqueues_nothing (db_find_one raises id).
Proof.
  intros s r s'. unfold db_find_one.
  destruct raises; intros [= _ <-]; repeat split.
Qed.

Lemma quiet_db_touch raises oid m : enqueues_nothing (db_touch raises oid m).
Proof.
  intros s r s'. unfold db_touch.
  destruct raises; intros [= _ <-]; [repeat split|].
  cbn. repeat split; apply update_one_keeps; reflexivity.
Qed.

Lemma quiet_dedup_check env force fm :
  enqueues_nothing (dedup_check env force fm).
Proof.
  unfold dedup_check. destruct (negb force); [|apply quiet_ret].
  apply quiet_bind; [apply quiet_db_find_one|].
  intros [ex|]; [|apply quiet_ret].
  cbv zeta.
  destruct (_ && _ && _).
  { apply quiet_bind; [apply quiet_incr_skipped|intros; apply quiet_ret]. }
  destruct (_ && _); [|apply quiet_ret].
  apply quiet_bind; [apply quiet_db_touch|]. intros _.
  apply quiet_bind; [apply quiet_incr_skipped|intros; apply quiet_ret].
Qed.

Lemma quiet_dropbox_download env path :
  enqueues_nothing (dropbox_download env path).
Proof.
  intros s r s'. unfold dropbox_download.
  destruct (download env); intros [= _ <-]; repeat split.
Qed.

Lemma quiet_blob_upload env name bytes :
  enqueues_nothing (blob_upload env name bytes).
Proof.
  intros s r s'. unfold blob_upload.
  destruct (upload_raises env); intros [= _ <-]; repeat split.
Qed.

(** The loop body never gets past the construction of [file_record]. *)
Lemma quiet_sync_file env force fm : enqueues_nothing (sync_file env force fm).
Proof.
  unfold sync_file. cbv zeta.
  destruct (negb _); [apply quiet_incr_skipped|].
  apply quiet_bind; [apply quiet_dedup_check|].
  intros [|]; [apply quiet_ret|].
  apply quiet_bind; [apply quiet_dropbox_download|]. intros file_content.
  apply quiet_bind; [apply quiet_blob_upload|]. intros _.
  apply quiet_bind_raises. intros s. eexists. apply file_hash_unbound.
Qed.

Lemma quiet_sync_loop force items : enqueues_nothing (sync_loop force items).
Proof.
  induction items as [|item items IH]; cbn [sync_loop]; [apply quiet_ret|].
  apply quiet_bind; [|intros _; exact IH].
  apply quiet_try_except; [apply quiet_sync_file|].
  intros _. apply quiet_incr_skipped.
Qed.

End SyncFacts.

(** C1 at its own scenario.  An empty database, and a listing with one
    supported, never seen 10 KB PDF at [/docs/a.pdf] for which every
    external call succeeds: the file is downloaded and its blob uploaded,
    then building [file_record] raises [NameError] on [file_hash].  The
    route answers [queued = 0, skipped = 1]; no record has been created and
    no message has been queued. *)
Theorem unseen_file_is_not_queued :
  let run := Sync.manual_sync false (Some [(a_pdf, sync_ok_env)]) empty_state in
  DropboxService.is_supported_file_type
    (DropboxService.get_file_extension (fm_name a_pdf)) = true
  /\ fst run
     = Ok {| sr_status := "success";
             sr_files_queued := 0;
             sr_files_skipped := 1;
             sr_message := "Queued 0 files for processing, skipped 1 files" |}
  /\ files (snd run) = []
  /\ queue (snd run) = []
  /\ downloaded (snd run) = ["/docs/a.pdf"]
  /\ blobs (snd run) !! "dropbox/9f86d0/a.pdf" = Some "%PDF-1.7 ..."
  /\ fst (Sync.sync_file sync_ok_env false a_pdf empty_state)
     = Raise (Exc "NameError" "name 'file_hash' is not defined").
Proof. cbv zeta. repeat split; vm_compute; reflexivity. Qed.

(** No run of [manual_sync] queues anything: whatever the listing, the
    outcomes of the external calls and the starting state, the queue is left
    as it was, the answer reports [files_queued = 0], and no file document
    is added or has its status changed. *)
Theorem manual_sync_never_enqueues
        (force_reprocess : bool)
        (listing : option (list (FileMetadata * SyncEnv))) (s : SyncState) :
  let run := Sync.manual_sync force_reprocess listing s in
  queue (snd run) = queue s
  /\ map f_id (files (snd run)) = map f_id (files s)
  /\ map processing_status (files (snd run)) = map processing_status (files s)
  /\ (forall response, fst run = Ok response -> sr_files_queued response = 0).
Proof.
  cbv zeta.
  destruct listing as [items|];
    [|repeat split; try reflexivity; discriminate].
  set (s0 := {| files := files s; blobs := blobs s; queue := queue s;
                downloaded := downloaded s; files_queued := 0;
                files_skipped := 0 |}).
  assert (Hrun : exists r s',
             Sync.manual_sync force_reprocess (Some items) s = (r, s')
             /\ (exists r0, Sync.sync_loop force_reprocess items s0 = (r0, s'))
             /\ (forall response,
                    r = Ok response ->
                    sr_files_queued response = files_queued s')).
  { unfold Sync.manual_sync, bind, Py.modify, Py.get. fold s0.
    destruct (Sync.sync_loop force_reprocess items s0) as [[[]|e] s1].
    - eexists _, s1. split; [reflexivity|]. split; [eauto|].
      intros response [= <-]. reflexivity.
    - eexists _, s1. split; [reflexivity|]. split; [eauto|]. discriminate. }
  destruct Hrun as (r & s' & -> & [r0 Hloop] & Hresp).
  destruct (SyncFacts.quiet_sync_loop _ _ _ _ _ Hloop) as (Hq & Hn & Hi & Hs).
  cbn [fst snd]. repeat split; try assumption.
  intros response Hr. rewrite (Hresp response Hr). exact Hn.
Qed.

(** ** The deduplication check *)

Module DedupFacts.
Import Sync.

Lemma same_time_test (stored remote : option Z) :
  Py.truthy_opt_time stored && Py.truthy_opt_time remote
  && bool_decide (stored = remote) = true
  <-> exists t, stored = Some t /\ remote = Some t.
Proof.
  destruct stored as [a|], remote as [b|]; cbn;
    try (split; [discriminate|intros (t & Ha & Hb); discriminate]).
  case_bool_decide as Heq; split.
  - intros _. exists a. split; congruence.
  - reflexivity.
  - discriminate.
  - intros (t & Ha & Hb). congruence.
Qed.

Lemma truthy_str_nonempty h : Py.truthy_str h = true <-> h <> "".
Proof. destruct h; cbn; split; congruence. Qed.

Lemma same_hash_test (stored remote : option string) :
  Py.truthy_opt_str remote && bool_decide (stored = remote) = true
  <-> exists h, h <> "" /\ remote = Some h /\ stored = Some h.
Proof.
  destruct remote as [h|]; cbn.
  2: { split; [discriminate|intros (h & _ & Hr & _); discriminate]. }
  destruct (Py.truthy_str h) eqn:Hh; cbn.
  - case_bool_decide as Heq; split.
    + intros _. exists h. rewrite <- truthy_str_nonempty. auto.
    + reflexivity.
    + discriminate.
    + intros (h' & _ & Hr & Hs). congruence.
  - split; [discriminate|].
    intros (h' & Hne & [= <-] & _).
    apply truthy_str_nonempty in Hne. congruence.
Qed.

(** The check on a file that has a record, with the reads and writes
    spelled out. *)
Lemma dedup_check_existing env fm s existing :
  find_one_raises env = false ->
  List.find (fun d => bool_decide (dropbox_file_id d = fm_id fm)) (files s)
  = Some existing ->
  dedup_check env false fm s =
  if Py.truthy_opt_time (dropbox_modified_at existing)
     && Py.truthy_opt_time (fm_server_modified fm)
     && bool_decide (dropbox_modified_at existing = fm_server_modified fm)
  then (Ok Skip, skipped_once s)
  else if Py.truthy_opt_str (fm_content_hash fm)
          && bool_decide (metadata_content_hash existing = fm_content_hash fm)
  then
    if touch_raises env then (Raise mongo_down, s)
    else (Ok Skip,
          skipped_once
            (with_files
               (fst (update_one (f_id existing)
                       (set_modified (fm_server_modified fm)) (files s)))
               s))
  else (Ok Proceed, s).
Proof.
  intros Hraise Hfind. unfold dedup_check. cbn [negb].
  unfold bind at 1. rewrite Hraise, SyncFacts.db_find_one_ok, Hfind.
  cbv zeta.
  destruct (_ && _ && _); [reflexivity|].
  destruct (_ && _); [|reflexivity].
  unfold bind, db_touch. destruct (touch_raises env); reflexivity.
Qed.

End DedupFacts.

(** C6, as stated, fails when no hash is there to compare: with differing
    timestamps, a listing entry without a content hash and a record without
    a stored one have equal hashes, yet the file is not skipped; it goes on
    to the download.  The same holds when both hashes are the empty
    string. *)
Lemma equal_absent_hashes_are_reprocessed :
  fm_content_hash (a_pdf_touched None)
  = metadata_content_hash (sample_file_hashed None)
  /\ Sync.dedup_check sync_ok_env false (a_pdf_touched None)
                      (state_with (sample_file_hashed None))
     = (Ok Sync.Proceed, state_with (sample_file_hashed None))
  /\ fm_content_hash (a_pdf_touched (Some ""))
     = metadata_content_hash (sample_file_hashed (Some ""))
  /\ Sync.dedup_check sync_ok_env false (a_pdf_touched (Some ""))
                      (state_with (sample_file_hashed (Some "")))
     = (Ok Sync.Proceed, state_with (sample_file_hashed (Some ""))).
Proof. repeat split; reflexivity. Qed.

(** C6 (amended).  For a listed file that has a record, with
    [force_reprocess] false: if the stored and the remote modification time
    are both present and equal, the file is skipped and nothing but the
    skip counter changes; otherwise, if the remote content hash is present,
    non-empty and equal to the stored one, the file is skipped and only
    [dropbox_modified_at] of the record is rewritten (to the remote time);
    otherwise the check falls through and the file is reprocessed.  The
    check itself never downloads. *)
Theorem dedup_decision
        (env : SyncEnv) (fm : FileMetadata) (s : SyncState)
        (existing : FileDoc) :
  find_one_raises env = false ->
  List.find (fun d => bool_decide (dropbox_file_id d = fm_id fm)) (files s)
  = Some existing ->
  let stored := dropbox_modified_at existing in
  let remote := fm_server_modified fm in
  let same_time := exists t, stored = Some t /\ remote = Some t in
  let same_hash :=
    exists h, h <> "" /\ fm_content_hash fm = Some h
              /\ metadata_content_hash existing = Some h in
  let run := Sync.dedup_check env false fm s in
  (same_time -> run = (Ok Sync.Skip, skipped_once s))
  /\ (~ same_time -> same_hash -> touch_raises env = false ->
      run = (Ok Sync.Skip,
             skipped_once
               (Sync.with_files
                  (fst (update_one (f_id existing) (set_modified remote)
                                   (files s)))
                  s)))
  /\ (~ same_time -> ~ same_hash -> run = (Ok Sync.Proceed, s))
  /\ downloaded (snd run) = downloaded s
  /\ (forall m d, set_modified (dropbox_modified_at d) (set_modified m d) = d).
Proof.
  intros Hraise Hfind. cbv zeta.
  rewrite (DedupFacts.dedup_check_existing env fm s existing Hraise Hfind).
  pose proof (DedupFacts.same_time_test (dropbox_modified_at existing)
                (fm_server_modified fm)) as Htime.
  pose proof (DedupFacts.same_hash_test (metadata_content_hash existing)
                (fm_content_hash fm)) as Hhash.
  destruct (_ && _ && _).
  { repeat split; try reflexivity.
    - intros Hno. exfalso. apply Hno, Htime. reflexivity.
    - intros Hno. exfalso. apply Hno, Htime. reflexivity.
    - apply SyncFacts.set_modified_only. }
  destruct (_ && _).
  - repeat split.
    + intros Hyes. apply Htime in Hyes. discriminate.
    + intros _ _ ->. reflexivity.
    + intros _ Hno. exfalso. apply Hno, Hhash. reflexivity.
    + destruct (touch_raises env); reflexivity.
    + apply SyncFacts.set_modified_only.
  - repeat split.
    + intros Hyes. apply Htime in Hyes. discriminate.
    + intros _ Hyes. apply Hhash in Hyes. discriminate.
    + apply SyncFacts.set_modified_only.
Qed.

(** The three outcomes for [/docs/a.pdf]: stale timestamp with the same
    hash, unchanged timestamp, and a changed hash. *)
Lemma dedup_decision_witness :
  Sync.dedup_check sync_ok_env false (a_pdf_touched (Some "e3b0c4"))
                   (state_with (sample_file_hashed (Some "e3b0c4")))
  = (Ok Sync.Skip,
     skipped_once
       (state_with
          (set_modified (Some 120) (sample_file_hashed (Some "e3b0c4")))))
  /\ Sync.dedup_check sync_ok_env false a_pdf
                      (state_with (sample_file_hashed (Some "e3b0c4")))
     = (Ok Sync.Skip,
        skipped_once (state_with (sample_file_hashed (Some "e3b0c4"))))
  /\ Sync.dedup_check sync_ok_env false (a_pdf_touched (Some "ffff"))
                      (state_with (sample_file_hashed (Some "e3b0c4")))
     = (Ok Sync.Proceed, state_with (sample_file_hashed (Some "e3b0c4"))).
Proof.
  split; [|split].
  - refine (proj1 (proj2 (dedup_decision sync_ok_env
                            (a_pdf_touched (Some "e3b0c4"))
                            (state_with (sample_file_hashed (Some "e3b0c4")))
                            (sample_file_hashed (Some "e3b0c4"))
                            eq_refl eq_refl)) _ _ eq_refl).
    + intros (t & Ha & Hb). cbn in Ha, Hb. congruence.
    + exists "e3b0c4". repeat split. discriminate.
  - refine (proj1 (dedup_decision sync_ok_env a_pdf
                     (state_with (sample_file_hashed (Some "e3b0c4")))
                     (sample_file_hashed (Some "e3b0c4"))
                     eq_refl eq_refl) _).
    exists 95. split; reflexivity.
  - refine (proj1 (proj2 (proj2 (dedup_decision sync_ok_env
                            (a_pdf_touched (Some "ffff"))
                            (state_with (sample_file_hashed (Some "e3b0c4")))
                            (sample_file_hashed (Some "e3b0c4"))
                            eq_refl eq_refl))) _ _).
    + intros (t & Ha & Hb). cbn in Ha, Hb. congruence.
    + intros (h & _ & Ha & Hb). cbn in Ha, Hb. congruence.
Defined.

(* ===================================================================== *)
(** * Further properties of the worker *)
(* ===================================================================== *)

(** ** The retry loop, attempt by attempt *)

Module RetryRuns.
Import Retry.

Section Runs.
Variable cfg : WorkerConfig.
Variable outcome : nat -> bool.





End Runs.





End RetryRuns.






(** ** Deliveries of one message *)

Module DeliveryFacts.
Import Worker.

Lemma deliveries_settle cfg succeeds m fuel : forall count,
  count <= max_receive_count cfg ->
  (Z.to_nat (max_receive_count cfg - count) < fuel)%nat ->
  exists n last,
    deliveries cfg succeeds m count fuel
    = replicate n abandon_message ++ [last]
    /\ (n <= Z.to_nat (max_receive_count cfg - count))%nat
    /\ leaves_queue last = true
    /\ (last = complete_message
        <-> exists k, count <= k <= max_receive_count cfg
                      /\ succeeds k = true).
Proof.
  induction fuel as [|fuel IH]; intros count Hle Hfuel; [lia|].
  cbn [deliveries].
  destruct (succeeds count) eqn:Hok.
  { exists 0%nat, complete_message. cbn. repeat split; try lia.
    intros _. exists count. split; [lia|assumption]. }
  unfold resolve. cbn [delivery_count].
  destruct (Z.leb_spec (max_receive_count cfg) count) as [Hge|Hlt].
  - eexists 0%nat, _. cbn. repeat split; try lia; try discriminate.
    intros (k & Hk & Hsk). assert (k = count) as -> by lia. congruence.
  - destruct (IH (count + 1)) as (n & last & Htrace & Hn & Hout & Hiff);
      [lia|lia|].
    exists (S n), last. rewrite Htrace. cbn.
    repeat split; try assumption; try lia.
    + intros Hlast. destruct (proj1 Hiff Hlast) as (k & Hk & Hsk).
      exists k. split; [lia|assumption].
    + intros (k & Hk & Hsk). apply Hiff.
      exists k. split; [|assumption].
      destruct (Z.eq_dec k count) as [->|]; [congruence|lia].
Qed.

End DeliveryFacts.

(** Whatever the outcomes of processing, a message is delivered at most
    MAX_RECEIVE_COUNT times: it is abandoned fewer than MAX_RECEIVE_COUNT
    times and then either completed or dead-lettered; it is completed
    exactly when one of its first MAX_RECEIVE_COUNT deliveries succeeds. *)
Theorem message_leaves_queue_within_ceiling
        (cfg : WorkerConfig) (succeeds : Z -> bool) (m : MessageData)
        (fuel : nat) :
  1 <= max_receive_count cfg ->
  (Z.to_nat (max_receive_count cfg) <= fuel)%nat ->
  exists n last,
    Worker.deliveries cfg succeeds m 1 fuel
    = replicate n Worker.abandon_message ++ [last]
    /\ (n < Z.to_nat (max_receive_count cfg))%nat
    /\ leaves_queue last = true
    /\ (last = Worker.complete_message
        <-> exists k, 1 <= k <= max_receive_count cfg /\ succeeds k = true).
Proof.
  intros Hmax Hfuel.
  destruct (DeliveryFacts.deliveries_settle cfg succeeds m fuel 1)
    as (n & last & Htrace & Hn & Hout & Hiff); [lia|lia|].
  exists n, last. repeat split; try assumption; try lia; apply Hiff.
Qed.

(** A message that fails once and then succeeds: one abandon, then the
    completion. *)
Lemma message_leaves_queue_witness :
  exists n last,
    Worker.deliveries default_config (fun k => bool_decide (k = 2))
                      sample_message_data 1 3
    = replicate n Worker.abandon_message ++ [last]
    /\ (n < 3)%nat
    /\ leaves_queue last = true
    /\ (last = Worker.complete_message
        <-> exists k, 1 <= k <= 3 /\ bool_decide (k = 2) = true).
Proof.
  refine (message_leaves_queue_within_ceiling default_config
            (fun k => bool_decide (k = 2)) sample_message_data 3 _ _).
  - cbn. lia.
  - cbn. lia.
Defined.

(** ** Whole runs of [process_dropbox_file] *)

Module RunFacts.
Import Docling Worker DbFacts WorkerFacts.

Lemma with_no_documents db : with_documents [] db = db.
Proof. unfold with_documents. rewrite app_nil_r. apply db_eta. Qed.

Lemma no_chunks_no_documents env oid :
  document_chunks env oid (generate_embeddings env []) = [].
Proof.
  unfold generate_embeddings. destruct (negb (openai_client env)); reflexivity.
Qed.

(** The persist stage in full: which call raises first, and what the
    database holds afterwards. *)
Lemma persist_run env oid url chunks db :
  let docs := document_chunks env oid (generate_embeddings env chunks) in
  persist env oid url chunks db =
  match docs with
  | _ :: _ =>
      if insert_many_raises env
      then (Raise (Exc "PyMongoError" (mongo_error env)), db)
      else if completion_update_raises env
      then (Raise (Exc "PyMongoError" (mongo_error env)),
            with_documents docs db)
      else (Ok true,
            completed_with env oid url (Z.of_nat (length docs))
                           (with_documents docs db))
  | [] =>
      if completion_update_raises env
      then (Raise (Exc "PyMongoError" (mongo_error env)), db)
      else (Ok true, completed_with env oid url 0 db)
  end.
Proof.
  cbv zeta. unfold persist.
  destruct chunks as [|c chunks].
  - rewrite no_chunks_no_documents. unfold bind.
    destruct (completion_update_raises env); [reflexivity|].
    rewrite files_update_one_ok. reflexivity.
  - cbv zeta.
    destruct (document_chunks env oid (generate_embeddings env (c :: chunks)))
      as [|doc docs].
    + unfold bind. cbn [ret length].
      destruct (completion_update_raises env); [reflexivity|].
      rewrite files_update_one_ok. reflexivity.
    + unfold bind, chunks_insert_many.
      destruct (insert_many_raises env); [reflexivity|].
      destruct (completion_update_raises env); [reflexivity|].
      rewrite files_update_one_ok. reflexivity.
Qed.

(** The persist stage never answers [False]; when it succeeds, the record
    is completed with the number of documents appended. *)
Lemma persist_success env oid url chunks db b db' :
  persist env oid url chunks db = (Ok b, db') ->
  b = true
  /\ db' = completed_with env oid url
             (Z.of_nat (length (document_chunks env oid
                                  (generate_embeddings env chunks))))
             (with_documents (document_chunks env oid
                                (generate_embeddings env chunks)) db).
Proof.
  rewrite persist_run. cbv zeta.
  destruct (document_chunks env oid (generate_embeddings env chunks))
    as [|doc docs].
  - destruct (completion_update_raises env); [discriminate|].
    intros [= <- <-]. rewrite with_no_documents. split; reflexivity.
  - destruct (insert_many_raises env); [discriminate|].
    destruct (completion_update_raises env); [discriminate|].
    intros [= <- <-]. split; reflexivity.
Qed.

(** Whether the persist stage succeeds does not depend on the database it
    runs against. *)
Lemma persist_success_anywhere env oid url chunks db b db' db0 :
  persist env oid url chunks db = (Ok b, db') ->
  persist env oid url chunks db0
  = (Ok true,
     completed_with env oid url
       (Z.of_nat (length (document_chunks env oid
                            (generate_embeddings env chunks))))
       (with_documents (document_chunks env oid
                          (generate_embeddings env chunks)) db0)).
Proof.
  rewrite !persist_run. cbv zeta.
  destruct (document_chunks env oid (generate_embeddings env chunks))
    as [|doc docs].
  - destruct (completion_update_raises env); [discriminate|].
    intros _. rewrite with_no_documents. reflexivity.
  - destruct (insert_many_raises env); [discriminate|].
    destruct (completion_update_raises env); [discriminate|].
    reflexivity.
Qed.

(** A run that returns [True] got as far as chunking and is its persist
    stage. *)
Lemma process_success cfg env message db :
  fst (process_dropbox_file cfg env message db) = Ok true ->
  exists file_id oid md url,
    reaches_chunking cfg env message db file_id oid md url
    /\ process_dropbox_file cfg env message db
       = persist env oid url (chunk_markdown env md) (marked env oid db).
Proof.
  intros Hsucc.
  assert (Hstages : exists file_id oid md url db1,
             reaches_chunking cfg env message db file_id oid md url
             /\ persist env oid url (chunk_markdown env md)
                        (marked env oid db) = (Ok true, db1)).
  { revert Hsucc. unfold process_dropbox_file.
    destruct (body message) as [m|] eqn:Hbody; [|discriminate].
    destruct (required_fields m) as [[[[file_id b] n] t]|] eqn:Hreq;
      [|discriminate].
    unfold bind at 1.
    destruct (mark_processing_cases env file_id db)
      as [(oid & Hoid & Hraise & Hfound & Hmark)|Hno];
      [|rewrite Hno; discriminate].
    rewrite Hmark, Hoid. cbn [from_option id].
    unfold try_except at 1.
    destruct (pipeline cfg env file_id oid (marked env oid db))
      as [[r|e] db1] eqn:Hpipe;
      [|rewrite on_failure_run; discriminate].
    intros Hr. cbn in Hr. injection Hr as ->.
    revert Hpipe. unfold pipeline, bind.
    destruct (Retry.returned _) eqn:Hdl; [|discriminate]. cbn [ret].
    destruct (convert_to_markdown env) as [md|] eqn:Hconv; [|discriminate].
    destruct (Py.truthy_str md) eqn:Hmd; [|discriminate]. cbn [ret].
    destruct (upload_markdown_to_blob env file_id) as [url|] eqn:Hup;
      [|discriminate].
    destruct (Py.truthy_str url) eqn:Hurl; [|discriminate]. cbn [ret].
    intros Hpersist.
    exists file_id, oid, md, url, db1. split; [|exact Hpersist].
    repeat split; try assumption. exists m, b, n, t. split; assumption. }
  destruct Hstages as (file_id & oid & md & url & db1 & Hreach & Hpersist).
  exists file_id, oid, md, url. split; [exact Hreach|].
  rewrite (process_reaches_chunking _ _ _ _ _ _ _ _ Hreach).
  unfold try_except. rewrite Hpersist. reflexivity.
Qed.


Lemma documents_file_id env oid chunks :
  Forall (fun d => cd_file_id d = oid) (document_chunks env oid chunks).
Proof.
  unfold document_chunks.
  induction chunks as [|c chunks IH]; cbn; [constructor|].
  destruct (embedding c); [constructor; [reflexivity|]|]; exact IH.
Qed.

End RunFacts.

(** Whenever [process_dropbox_file] returns [True], the record of the
    message's file is "completed", its [chunk_count] is the number of chunk
    documents this run appended to [dropbox_chunks], and each of them refers
    to that record. *)
Theorem success_means_completed_with_count
        (cfg : WorkerConfig) (env : WorkerEnv)
        (message : ServiceBusReceivedMessage) (db : Db) :
  fst (Worker.process_dropbox_file cfg env message db) = Ok true ->
  exists file_id oid markdown url,
    let run := Worker.process_dropbox_file cfg env message db in
    let docs := new_documents env oid markdown in
    reaches_chunking cfg env message db file_id oid markdown url
    /\ dropbox_chunks (snd run) = dropbox_chunks db ++ docs
    /\ Forall (fun d => cd_file_id d = oid) docs
    /\ status_of oid (snd run) = Some "completed"
    /\ chunk_count_of oid (snd run) = Some (Z.of_nat (length docs)).
Proof.
  intros Hsucc.
  destruct (RunFacts.process_success cfg env message db Hsucc)
    as (file_id & oid & md & url & Hreach & Hrun).
  exists file_id, oid, md, url. cbv zeta. split; [exact Hreach|].
  rewrite Hrun in Hsucc |- *.
  destruct (Worker.persist env oid url (Docling.chunk_markdown env md)
                           (marked env oid db)) as [r db1] eqn:Hpersist.
  cbn in Hsucc. subst r.
  destruct (RunFacts.persist_success _ _ _ _ _ _ _ Hpersist) as [_ ->].
  assert (Hfound : is_Some (find_by_id oid (dropbox_files db)))
    by apply Hreach.
  cbn [snd]. unfold new_documents.
  split; [reflexivity|]. split; [apply RunFacts.documents_file_id|].
  apply StatusFacts.status_completed_with.
  apply (StatusFacts.found_after_marked env oid db Hfound).
Qed.

(** The healthy run on the sample record: two documents, count 2. *)
Lemma success_means_completed_with_count_witness :
  exists file_id oid markdown url,
    let run := Worker.process_dropbox_file default_config healthy_env
                 sample_message sample_db in
    let docs := new_documents healthy_env oid markdown in
    reaches_chunking default_config healthy_env sample_message sample_db
                     file_id oid markdown url
    /\ dropbox_chunks (snd run) = dropbox_chunks sample_db ++ docs
    /\ Forall (fun d => cd_file_id d = oid) docs
    /\ status_of oid (snd run) = Some "completed"
    /\ chunk_count_of oid (snd run) = Some (Z.of_nat (length docs)).
Proof.
  exact (success_means_completed_with_count default_config healthy_env
           sample_message sample_db eq_refl).
Defined.


(** The worker only ever appends to [dropbox_chunks]: when the same message
    is processed successfully a second time (a redelivery, or a re-sync of
    the file), every chunk document is inserted again, so the collection
    holds two copies while [chunk_count] still reports one. *)
Theorem reprocessing_duplicates_chunks
        (cfg : WorkerConfig) (env : WorkerEnv)
        (message : ServiceBusReceivedMessage) (db : Db) :
  fst (Worker.process_dropbox_file cfg env message db) = Ok true ->
  exists file_id oid markdown url,
    let docs := new_documents env oid markdown in
    let first := Worker.process_dropbox_file cfg env message db in
    let second := Worker.process_dropbox_file cfg env message (snd first) in
    reaches_chunking cfg env message db file_id oid markdown url
    /\ fst second = Ok true
    /\ dropbox_chunks (snd first) = dropbox_chunks db ++ docs
    /\ dropbox_chunks (snd second) = dropbox_chunks db ++ docs ++ docs
    /\ chunk_count_of oid (snd second) = Some (Z.of_nat (length docs)).
Proof.
  intros Hsucc.
  destruct (RunFacts.process_success cfg env message db Hsucc)
    as (file_id & oid & md & url & Hreach & Hrun).
  exists file_id, oid, md, url. cbv zeta. split; [exact Hreach|].
  rewrite Hrun in Hsucc |- *.
  destruct (Worker.persist env oid url (Docling.chunk_markdown env md)
                           (marked env oid db)) as [r db1] eqn:Hpersist.
  cbn in Hsucc. subst r.
  destruct (RunFacts.persist_success _ _ _ _ _ _ _ Hpersist) as [_ Hdb1].
  assert (Hfound : is_Some (find_by_id oid (dropbox_files db)))
    by apply Hreach.
  cbn [snd].
  assert (Hfound1 : is_Some (find_by_id oid (dropbox_files db1))).
  { rewrite Hdb1. unfold completed_with. cbn [dropbox_files].
    rewrite DbFacts.update_one_find by reflexivity.
    destruct (StatusFacts.found_after_marked env oid db Hfound) as [d Hd].
    cbn [with_documents dropbox_files]. rewrite Hd. eauto. }
  assert (Hreach1 : reaches_chunking cfg env message db1 file_id oid md url).
  { destruct Hreach as (H1 & H2 & H3 & _ & H5).
    split; [exact H1|]. split; [exact H2|]. split; [exact H3|].
    split; [exact Hfound1|exact H5]. }
  rewrite (WorkerFacts.process_reaches_chunking _ _ _ _ _ _ _ _ Hreach1).
  unfold try_except.
  rewrite (RunFacts.persist_success_anywhere _ _ _ _ _ _ _
             (marked env oid db1) Hpersist).
  cbn [fst snd]. unfold new_documents.
  split; [reflexivity|].
  split; [rewrite Hdb1; reflexivity|].
  split.
  - cbn [completed_with with_documents marked dropbox_chunks].
    rewrite Hdb1. cbn [completed_with with_documents marked dropbox_chunks].
    rewrite <- app_assoc. reflexivity.
  - apply StatusFacts.status_completed_with.
    apply (StatusFacts.found_after_marked env oid db1 Hfound1).
Qed.

(** The healthy run twice: four chunk documents, [chunk_count] 2. *)
Lemma reprocessing_duplicates_chunks_witness :
  exists file_id oid markdown url,
    let docs := new_documents healthy_env oid markdown in
    let first := Worker.process_dropbox_file default_config healthy_env
                   sample_message sample_db in
    let second := Worker.process_dropbox_file default_config healthy_env
                    sample_message (snd first) in
    reaches_chunking default_config healthy_env sample_message sample_db
                     file_id oid markdown url
    /\ fst second = Ok true
    /\ dropbox_chunks (snd first) = dropbox_chunks sample_db ++ docs
    /\ dropbox_chunks (snd second) = dropbox_chunks sample_db ++ docs ++ docs
    /\ chunk_count_of oid (snd second) = Some (Z.of_nat (length docs)).
Proof.
  exact (reprocessing_duplicates_chunks default_config healthy_env
           sample_message sample_db eq_refl).
Defined.

(** ** The one record a run writes to *)

Module OneRecordFacts.
Import Docling Worker DbFacts FrameFacts.

Lemma others_unless oid c : others oid c = omap (unless_id oid) c.
Proof.
  unfold others, unless_id.
  induction c as [|d c IH]; [reflexivity|].
  cbn. destruct (bool_decide (f_id d = oid)); cbn; rewrite IH; reflexivity.
Qed.

Lemma omap_of_map {A B} (g : A -> option B) (l l' : list A) :
  map g l' = map g l -> omap g l' = omap g l.
Proof.
  revert l'. induction l as [|x l IH]; intros [|x' l']; cbn;
    try discriminate; [reflexivity|].
  intros [= Hx Hl]. rewrite Hx, (IH _ Hl). reflexivity.
Qed.

Lemma update_one_keeps_at {A} (g : FileDoc -> A) fid f c :
  (forall d, f_id d = fid -> g (f d) = g d) ->
  map g (fst (update_one fid f c)) = map g c.
Proof.
  intros Hg. induction c as [|d c IH]; [reflexivity|].
  cbn [update_one]. case_bool_decide as Hd.
  - cbn. rewrite Hg by exact Hd. reflexivity.
  - destruct (update_one fid f c). cbn in *. rewrite IH. reflexivity.
Qed.

Section At.
Variable oid : string.

Lemma keeps_update_at raises env f :
  (forall d, f_id (f d) = f_id d) ->
  keeps (unless_id oid) (files_update_one raises env oid f).
Proof.
  intros Hf db r db'. unfold files_update_one.
  destruct raises; [intros [= _ <-]; reflexivity|].
  assert (Hkeep : map (unless_id oid)
                      (fst (update_one oid f (dropbox_files db)))
                  = map (unless_id oid) (dropbox_files db)).
  { apply update_one_keeps_at. intros d Hd. unfold unless_id.
    rewrite Hf. rewrite !bool_decide_eq_true_2 by exact Hd. reflexivity. }
  destruct (update_one oid f (dropbox_files db)).
  intros [= _ <-]. exact Hkeep.
Qed.

Lemma keeps_mark_at env file_id :
  ObjectId file_id = Some oid ->
  keeps (unless_id oid) (mark_processing env file_id).
Proof.
  intros Hoid. unfold mark_processing. rewrite Hoid.
  apply keeps_try_except; [|intros; apply keeps_ret].
  apply keeps_bind; [|intros; apply keeps_ret].
  apply keeps_update_at. reflexivity.
Qed.

Lemma keeps_persist_at env url chunks :
  keeps (unless_id oid) (persist env oid url chunks).
Proof.
  unfold persist. destruct chunks as [|c chunks].
  - apply keeps_bind; [|intros; apply keeps_ret].
    apply keeps_update_at. reflexivity.
  - cbv zeta. apply keeps_bind.
    + destruct (document_chunks _ _ _);
        [apply keeps_ret|apply keeps_insert_many].
    + intros _. apply keeps_bind; [|intros; apply keeps_ret].
      apply keeps_update_at. reflexivity.
Qed.

Lemma keeps_pipeline_at cfg env file_id :
  keeps (unless_id oid) (pipeline cfg env file_id oid).
Proof.
  unfold pipeline. apply keeps_bind.
  { destruct (Retry.returned _); [apply keeps_ret|apply keeps_raise]. }
  intros _. apply keeps_bind.
  { destruct (convert_to_markdown env) as [md|]; [|apply keeps_raise].
    destruct (Py.truthy_str md); [apply keeps_ret|apply keeps_raise]. }
  intros md. apply keeps_bind.
  { destruct (upload_markdown_to_blob env file_id) as [url|];
      [|apply keeps_raise].
    destruct (Py.truthy_str url); [apply keeps_ret|apply keeps_raise]. }
  intros url. apply keeps_persist_at.
Qed.

Lemma keeps_on_failure_at env e :
  keeps (unless_id oid) (on_failure env oid e).
Proof.
  unfold on_failure. apply keeps_bind; [|intros; apply keeps_ret].
  apply keeps_try_except; [|intros; apply keeps_ret].
  apply keeps_bind; [|intros; apply keeps_ret].
  apply keeps_update_at. reflexivity.
Qed.

Lemma keeps_process_at cfg env message m file_id b n t :
  body message = Some m ->
  required_fields m = Some (file_id, b, n, t) ->
  ObjectId file_id = Some oid ->
  keeps (unless_id oid) (process_dropbox_file cfg env message).
Proof.
  intros Hbody Hreq Hoid. unfold process_dropbox_file.
  rewrite Hbody, Hreq, Hoid. cbn [from_option id].
  apply keeps_bind; [apply keeps_mark_at, Hoid|].
  intros [|]; [|apply keeps_ret].
  apply keeps_try_except; [apply keeps_pipeline_at|].
  intros e. apply keeps_on_failure_at.
Qed.

End At.

End OneRecordFacts.

(** A run for the file with id [oid] changes no other file document,
    however it ends. *)
Theorem run_writes_one_record
        (cfg : WorkerConfig) (env : WorkerEnv)
        (message : ServiceBusReceivedMessage) (db : Db)
        (m : MessageData) (file_id b n t oid : string) :
  body message = Some m ->
  Worker.required_fields m = Some (file_id, b, n, t) ->
  ObjectId file_id = Some oid ->
  others oid
    (dropbox_files (snd (Worker.process_dropbox_file cfg env message db)))
  = others oid (dropbox_files db).
Proof.
  intros Hbody Hreq Hoid.
  rewrite !OneRecordFacts.others_unless.
  apply OneRecordFacts.omap_of_map.
  eapply (OneRecordFacts.keeps_process_at oid cfg env message m file_id b n t
            Hbody Hreq Hoid).
  apply surjective_pairing.
Qed.

(** Beside the sample record a second one, which a run for the first
    leaves alone. *)
Lemma run_writes_one_record_witness :
  let other := sample_file_hashed (Some "e3b0c4") in
  let bystander :=
    set_modified (Some 7)
      {| f_id := "aaaaaaaaaaaaaaaaaaaaaaaa";
         dropbox_path := dropbox_path other;
         dropbox_file_id := "id:b"; dropbox_rev := dropbox_rev other;
         filename := filename other; file_type := file_type other;
         blob_url := blob_url other; file_hash := file_hash other;
         file_size := file_size other; user_id := user_id other;
         processing_status := "pending"; chunk_count := 0;
         created_at := 1; updated_at := 1;
         dropbox_created_at := None; dropbox_modified_at := None;
         metadata_folder := "/docs"; metadata_content_hash := None;
         markdown_blob_url := None; attempts := None;
         last_error := None |} in
  let db := {| dropbox_files := [bystander; sample_file];
               dropbox_chunks := [] |} in
  others "0123456789abcdef01234567"
    (dropbox_files
       (snd (Worker.process_dropbox_file default_config healthy_env
               sample_message db)))
  = [bystander].
Proof.
  cbv zeta.
  refine (run_writes_one_record default_config healthy_env sample_message _
            sample_message_data "0123456789abcdef01234567"
            "https://acct.blob.core.windows.net/dropbox/a.pdf" "a.pdf" "pdf"
            "0123456789abcdef01234567" eq_refl eq_refl eq_refl).
Defined.

(** ** Chunk numbering and embeddings *)

Module IndexFacts.
Import Docling Worker.

Lemma chunk_loop_range env pieces : forall idx,
  Forall (fun i => idx <= i < idx + length pieces)%nat
         (map chunk_index (chunk_loop env idx pieces)).
Proof.
  induction pieces as [|p pieces IH]; intros idx; cbn [chunk_loop];
    [constructor|].
  assert (Hrest : Forall (fun i => idx <= i < idx + length (p :: pieces))%nat
                    (map chunk_index (chunk_loop env (S idx) pieces))).
  { eapply Forall_impl; [apply IH|]. cbn. intros i Hi. lia. }
  destruct (Py.truthy_str (Py.strip p)); [|exact Hrest].
  cbn [map chunk_index]. constructor; [cbn; lia|exact Hrest].
Qed.

Lemma chunk_loop_sorted env pieces : forall idx,
  StronglySorted lt (map chunk_index (chunk_loop env idx pieces)).
Proof.
  induction pieces as [|p pieces IH]; intros idx; cbn [chunk_loop];
    [constructor|].
  destruct (Py.truthy_str (Py.strip p)); [|apply IH].
  cbn [map chunk_index]. constructor; [apply IH|].
  eapply Forall_impl; [apply (chunk_loop_range env pieces (S idx))|].
  cbn. intros i Hi. lia.
Qed.

Lemma chunk_loop_length env pieces : forall idx,
  (length (chunk_loop env idx pieces) <= length pieces)%nat.
Proof.
  induction pieces as [|p pieces IH]; intros idx; cbn [chunk_loop];
    [reflexivity|].
  specialize (IH (S idx)).
  destruct (Py.truthy_str (Py.strip p)); cbn; lia.
Qed.

(** Attaching embeddings changes no other field. *)
Lemma attach_keeps {A} (g : Chunk -> A) data : forall chunks,
  (forall e c, g (set_embedding e c) = g c) ->
  map g (attach data chunks) = map g chunks.
Proof.
  induction data as [|e data IH]; intros [|c chunks] Hg; try reflexivity.
  cbn. rewrite Hg, IH by exact Hg. reflexivity.
Qed.

Lemma generate_embeddings_attach env chunks :
  generate_embeddings env chunks = chunks
  \/ exists data, generate_embeddings env chunks = attach data chunks.
Proof.
  unfold generate_embeddings.
  destruct (negb (openai_client env)); [left; reflexivity|].
  destruct (map content chunks); [left; reflexivity|].
  destruct (embeddings_create env _) as [data|]; [|left; reflexivity].
  right. exists data. apply ChunkFacts.assign_attach.
Qed.

Lemma generate_embeddings_keeps {A} (g : Chunk -> A) env chunks :
  (forall e c, g (set_embedding e c) = g c) ->
  map g (generate_embeddings env chunks) = map g chunks.
Proof.
  intros Hg.
  destruct (generate_embeddings_attach env chunks) as [->|[data ->]];
    [reflexivity|].
  apply attach_keeps, Hg.
Qed.

Lemma documents_indices_Forall (P : nat -> Prop) env oid chunks :
  Forall P (map chunk_index chunks) ->
  Forall P (map cd_chunk_index (document_chunks env oid chunks)).
Proof.
  unfold document_chunks.
  induction chunks as [|c chunks IH]; cbn; [constructor|].
  intros H. inversion H as [|? ? Hc Hrest]; subst.
  destruct (embedding c); cbn; [constructor; [exact Hc|]|]; apply IH, Hrest.
Qed.

Lemma documents_indices_sorted env oid chunks :
  StronglySorted lt (map chunk_index chunks) ->
  StronglySorted lt (map cd_chunk_index (document_chunks env oid chunks)).
Proof.
  induction chunks as [|c chunks IH]; [constructor|].
  cbn [map]. intros H. inversion H as [|? ? Hsorted Hlt]; subst.
  unfold document_chunks. cbn.
  destruct (embedding c); cbn.
  - constructor; [apply IH, Hsorted|].
    apply documents_indices_Forall, Hlt.
  - apply IH, Hsorted.
Qed.

Lemma documents_length env oid chunks :
  (length (document_chunks env oid chunks) <= length chunks)%nat.
Proof.
  unfold document_chunks.
  induction chunks as [|c chunks IH]; cbn; [reflexivity|].
  destruct (embedding c); cbn; lia.
Qed.

Lemma sorted_lt_NoDup (l : list nat) : StronglySorted lt l -> NoDup l.
Proof.
  induction 1 as [|x l _ IH Hlt]; constructor; [|exact IH].
  intros Hin. rewrite Forall_forall in Hlt.
  specialize (Hlt x Hin). lia.
Qed.

End IndexFacts.

(** Whatever the splitter and the embedding endpoint return, the chunks of
    [chunk_markdown] and the chunk documents built from them carry strictly
    increasing indices (so no index occurs twice), every index is the
    position of a splitter piece, and there are never more documents than
    chunks, nor more chunks than pieces. *)
Theorem chunk_indices_strictly_increase
        (env : WorkerEnv) (oid markdown : string) :
  let chunks := Docling.chunk_markdown env markdown in
  let docs := new_documents env oid markdown in
  StronglySorted lt (map chunk_index chunks)
  /\ StronglySorted lt (map cd_chunk_index docs)
  /\ NoDup (map cd_chunk_index docs)
  /\ (length docs <= length chunks)%nat
  /\ (forall pieces,
         split_text env markdown = Some pieces ->
         (length chunks <= length pieces)%nat
         /\ Forall (fun i => i < length pieces)%nat
                   (map cd_chunk_index docs)).
Proof.
  cbv zeta. unfold new_documents.
  assert (Hsorted : StronglySorted lt
                      (map chunk_index (Docling.chunk_markdown env markdown))).
  { unfold Docling.chunk_markdown.
    destruct (split_text env markdown);
      [apply IndexFacts.chunk_loop_sorted|constructor]. }
  assert (Hdocs : StronglySorted lt
            (map cd_chunk_index
               (Worker.document_chunks env oid
                  (Docling.generate_embeddings env
                     (Docling.chunk_markdown env markdown))))).
  { apply IndexFacts.documents_indices_sorted.
    rewrite IndexFacts.generate_embeddings_keeps by reflexivity.
    exact Hsorted. }
  split; [exact Hsorted|]. split; [exact Hdocs|].
  split; [apply IndexFacts.sorted_lt_NoDup, Hdocs|].
  split.
  - etransitivity; [apply IndexFacts.documents_length|].
    rewrite <- (length_map chunk_index),
            IndexFacts.generate_embeddings_keeps, length_map by reflexivity.
    reflexivity.
  - intros pieces Hsplit. unfold Docling.chunk_markdown. rewrite Hsplit.
    split; [apply IndexFacts.chunk_loop_length|].
    apply IndexFacts.documents_indices_Forall.
    rewrite IndexFacts.generate_embeddings_keeps by reflexivity.
    eapply Forall_impl; [apply IndexFacts.chunk_loop_range|].
    cbn. intros i Hi. lia.
Qed.

(** [generate_embeddings] returns the chunks it was given, in the same
    order and number; apart from the embedding no field of a chunk is
    changed, whatever the endpoint answers. *)
Theorem generate_embeddings_only_adds_embeddings
        (env : WorkerEnv) (chunks : list Chunk) (e0 : Embedding) :
  length (Docling.generate_embeddings env chunks) = length chunks
  /\ map (set_embedding e0) (Docling.generate_embeddings env chunks)
     = map (set_embedding e0) chunks.
Proof.
  split.
  - rewrite <- (length_map chunk_index),
            IndexFacts.generate_embeddings_keeps, length_map by reflexivity.
    reflexivity.
  - apply IndexFacts.generate_embeddings_keeps. reflexivity.
Qed.

(* ===================================================================== *)
(** * Further properties of the sync route *)
(* ===================================================================== *)

Module TallyFacts.
Import DropboxService Sync.

(** The deduplication check counts a file exactly when it skips it. *)
Lemma dedup_check_tally env force fm s r s' :
  dedup_check env force fm s = (r, s') ->
  counted s' = counted s + match r with Ok Skip => 1 | _ => 0 end.
Proof.
  unfold dedup_check, bind, db_find_one, db_touch, incr_skipped, Py.modify,
    ret, counted.
  intros H. repeat (case_match; simplify_eq); cbn; lia.
Qed.

(** The loop body counts a file once when it ends normally and not at all
    when it raises. *)
Lemma sync_file_tally env force fm s r s' :
  sync_file env force fm s = (r, s') ->
  counted s' = counted s + match r with Ok _ => 1 | Raise _ => 0 end.
Proof.
  unfold sync_file. cbv zeta.
  destruct (negb _).
  { intros [= <- <-]. unfold counted. cbn. lia. }
  unfold bind at 1.
  destruct (dedup_check env force fm s) as [[[|]|e] s1] eqn:Hdedup;
    pose proof (dedup_check_tally _ _ _ _ _ _ Hdedup) as Htally;
    cbn in Htally.
  - intros [= <- <-]. exact Htally.
  - unfold bind, dropbox_download, blob_upload.
    destruct (download env); [|intros [= <- <-]; lia].
    destruct (upload_raises env); [intros [= <- <-]; unfold counted in *;
                                   cbn; lia|].
    rewrite SyncFacts.file_hash_unbound.
    intros [= <- <-]. unfold counted in *. cbn. lia.
  - intros [= <- <-]. lia.
Qed.

Lemma sync_one_tally force item s :
  exists s', sync_one force item s = (Ok tt, s')
             /\ counted s' = counted s + 1.
Proof.
  unfold sync_one, try_except.
  destruct (sync_file (snd item) force (fst item) s) as [[[]|e] s1] eqn:Hrun;
    pose proof (sync_file_tally _ _ _ _ _ _ Hrun) as Htally; cbn in Htally.
  - exists s1. split; [reflexivity|exact Htally].
  - eexists. split; [reflexivity|]. unfold counted in *. cbn. lia.
Qed.

Lemma sync_loop_tally force items : forall s,
  exists s', sync_loop force items s = (Ok tt, s')
             /\ counted s' = counted s + Z.of_nat (length items).
Proof.
  induction items as [|item items IH]; intros s; cbn [sync_loop].
  - exists s. split; [reflexivity|]. cbn. lia.
  - destruct (sync_one_tally force item s) as (s1 & Hone & H1).
    destruct (IH s1) as (s2 & Hrest & H2).
    exists s2. unfold bind. rewrite Hone, Hrest.
    split; [reflexivity|]. cbn [length]. lia.
Qed.

End TallyFacts.

(** When the listing succeeds, [manual_sync] always answers "success",
    whatever goes wrong for individual files, and it counts every listed
    file exactly once: [files_queued + files_skipped] is the number of files
    listed. *)
Theorem manual_sync_counts_every_file
        (force_reprocess : bool) (items : list (FileMetadata * SyncEnv))
        (s : SyncState) :
  exists response,
    fst (Sync.manual_sync force_reprocess (Some items) s) = Ok response
    /\ sr_status response = "success"
    /\ sr_files_queued response + sr_files_skipped response
       = Z.of_nat (length items).
Proof.
  unfold Sync.manual_sync, bind, Py.modify, Py.get.
  destruct (TallyFacts.sync_loop_tally force_reprocess items
              (counters_reset s)) as (s' & Hloop & Hcount).
  unfold counters_reset in Hloop. rewrite Hloop.
  eexists. split; [reflexivity|]. split; [reflexivity|].
  cbn. unfold counted in Hcount. cbn in Hcount. lia.
Qed.

Module UploadFacts.
Import DropboxService Sync.

(** The loop body for a file that passes the deduplication check. *)
Lemma sync_file_proceeds env force fm s content :
  is_supported_file_type (get_file_extension (fm_name fm)) = true ->
  dedup_check env force fm s = (Ok Proceed, s) ->
  download env = Some content ->
  upload_raises env = false ->
  sync_file env force fm s
  = (Raise (Exc "NameError" "name 'file_hash' is not defined"),
     with_blob (fm_path_display fm)
       ("dropbox/" +:+ sha256_hexdigest env content +:+ "/" +:+ fm_name fm)
       content s).
Proof.
  intros Hsup Hdedup Hdl Hup. unfold sync_file. cbv zeta.
  rewrite Hsup. cbn [negb]. unfold bind at 1. rewrite Hdedup.
  unfold bind, dropbox_download, blob_upload. rewrite Hdl, Hup.
  cbn [files blobs queue downloaded files_queued files_skipped].
  rewrite SyncFacts.file_hash_unbound. reflexivity.
Qed.

(** Without a record, or with [force_reprocess], the check proceeds and
    leaves the state alone. *)
Lemma dedup_check_forced env fm s :
  dedup_check env true fm s = (Ok Proceed, s).
Proof. reflexivity. Qed.

Lemma dedup_check_unseen env fm s :
  find_one_raises env = false ->
  List.find (fun d => bool_decide (dropbox_file_id d = fm_id fm)) (files s)
  = None ->
  dedup_check env false fm s = (Ok Proceed, s).
Proof.
  intros Hraise Hfind. unfold dedup_check. cbn [negb].
  unfold bind. rewrite Hraise, SyncFacts.db_find_one_ok, Hfind. reflexivity.
Qed.

End UploadFacts.

(** A supported file that is new, or synced with [force_reprocess], and
    whose download and upload succeed, leaves its bytes in the blob
    container under [dropbox/<sha256>/<name>] and is then counted as
    skipped: the blob stays behind although nothing else records the file.
    The blob name depends on the digest and the file name only, not on the
    file's path. *)
Theorem passed_file_leaves_blob_behind
        (env : SyncEnv) (force_reprocess : bool) (fm : FileMetadata)
        (s : SyncState) (content : string) :
  DropboxService.is_supported_file_type
    (DropboxService.get_file_extension (fm_name fm)) = true ->
  (force_reprocess = true
   \/ (find_one_raises env = false
       /\ List.find (fun d => bool_decide (dropbox_file_id d = fm_id fm))
                    (files s) = None)) ->
  download env = Some content ->
  upload_raises env = false ->
  let key :=
    "dropbox/" +:+ sha256_hexdigest env content +:+ "/" +:+ fm_name fm in
  Sync.sync_one force_reprocess (fm, env) s
  = (Ok tt, skipped_once (with_blob (fm_path_display fm) key content s))
  /\ blobs (snd (Sync.sync_one force_reprocess (fm, env) s)) !! key
     = Some content.
Proof.
  intros Hsup Hpass Hdl Hup. cbv zeta.
  assert (Hdedup : Sync.dedup_check env force_reprocess fm s
                   = (Ok Sync.Proceed, s)).
  { destruct Hpass as [->|[Hraise Hfind]];
      [apply UploadFacts.dedup_check_forced
      |destruct force_reprocess;
       [apply UploadFacts.dedup_check_forced
       |apply UploadFacts.dedup_check_unseen; assumption]]. }
  assert (Hrun : Sync.sync_one force_reprocess (fm, env) s
                 = (Ok tt, skipped_once
                             (with_blob (fm_path_display fm)
                                ("dropbox/" +:+ sha256_hexdigest env content
                                 +:+ "/" +:+ fm_name fm) content s))).
  { unfold Sync.sync_one, try_except. cbn [fst snd].
    rewrite (UploadFacts.sync_file_proceeds env force_reprocess fm s content
               Hsup Hdedup Hdl Hup).
    reflexivity. }
  rewrite Hrun. split; [reflexivity|].
  cbn [snd skipped_once with_blob blobs]. apply lookup_insert_eq.
Qed.

(** The unseen PDF of C1: downloaded, uploaded, counted as skipped. *)
Lemma passed_file_leaves_blob_behind_witness :
  blobs (snd (Sync.sync_one false (a_pdf, sync_ok_env) empty_state))
  !! "dropbox/9f86d0/a.pdf"
  = Some "%PDF-1.7 ...".
Proof.
  refine (proj2 (passed_file_leaves_blob_behind sync_ok_env false a_pdf
                   empty_state "%PDF-1.7 ..." eq_refl _ eq_refl eq_refl)).
  right. split; reflexivity.
Defined.

Module RefreshFacts.
Import Sync.

(** With unique ids, the document found by its Dropbox id is the one that
    [update_one] rewrites by [_id]. *)
Lemma find_after_touch id m c existing :
  NoDup (map f_id c) ->
  List.find (fun d => bool_decide (dropbox_file_id d = id)) c = Some existing ->
  List.find (fun d => bool_decide (dropbox_file_id d = id))
            (fst (update_one (f_id existing) (set_modified m) c))
  = Some (set_modified m existing).
Proof.
  induction c as [|d c IH]; [discriminate|].
  cbn [map List.find update_one]. intros Hnodup.
  apply NoDup_cons in Hnodup as [Hfresh Hnodup].
  destruct (bool_decide (dropbox_file_id d = id)) eqn:Hd.
  - intros [= ->]. rewrite bool_decide_eq_true_2 by reflexivity.
    cbn. rewrite Hd. reflexivity.
  - intros Hfind.
    assert (Hin : f_id existing ∈ map f_id c).
    { apply list_elem_of_fmap. exists existing. split; [reflexivity|].
      apply list_elem_of_In. eapply find_some, Hfind. }
    rewrite bool_decide_eq_false_2 by (intros Heq; rewrite Heq in Hfresh; auto).
    specialize (IH Hnodup Hfind).
    destruct (update_one (f_id existing) (set_modified m) c) as [c' n].
    cbn in *. rewrite Hd. exact IH.
Qed.

End RefreshFacts.

(** The timestamp written on a hash match pays off on the next sync: when
    a file was skipped because its content hash matched (its stored
    modification time being stale), the stored time now equals the remote
    one, and checking the same listing entry again skips on the timestamps
    alone, without another write. *)
Theorem hash_skip_makes_next_check_cheap
        (env env' : SyncEnv) (fm : FileMetadata) (s : SyncState)
        (existing : FileDoc) (t : Z) (h : string) :
  find_one_raises env = false ->
  touch_raises env = false ->
  find_one_raises env' = false ->
  NoDup (map f_id (files s)) ->
  List.find (fun d => bool_decide (dropbox_file_id d = fm_id fm)) (files s)
  = Some existing ->
  fm_server_modified fm = Some t ->
  dropbox_modified_at existing <> Some t ->
  h <> "" ->
  fm_content_hash fm = Some h ->
  metadata_content_hash existing = Some h ->
  let first := Sync.dedup_check env false fm s in
  fst first = Ok Sync.Skip
  /\ List.find (fun d => bool_decide (dropbox_file_id d = fm_id fm))
               (files (snd first))
     = Some (set_modified (Some t) existing)
  /\ Sync.dedup_check env' false fm (snd first)
     = (Ok Sync.Skip, skipped_once (snd first)).
Proof.
  intros Hraise Htouch Hraise' Hnodup Hfind Hremote Hstale Hh Hrh Hsh.
  cbv zeta.
  rewrite (DedupFacts.dedup_check_existing env fm s existing Hraise Hfind).
  assert (Htime : Py.truthy_opt_time (dropbox_modified_at existing)
                  && Py.truthy_opt_time (fm_server_modified fm)
                  && bool_decide (dropbox_modified_at existing
                                  = fm_server_modified fm) = false).
  { apply not_true_is_false. intros Hyes.
    apply DedupFacts.same_time_test in Hyes as (t' & Hs & Hr).
    congruence. }
  assert (Hhash : Py.truthy_opt_str (fm_content_hash fm)
                  && bool_decide (metadata_content_hash existing
                                  = fm_content_hash fm) = true).
  { apply DedupFacts.same_hash_test. exists h. auto. }
  rewrite Htime, Hhash, Htouch. cbn [fst snd].
  assert (Hfound : List.find
                     (fun d => bool_decide (dropbox_file_id d = fm_id fm))
                     (files (skipped_once
                               (Sync.with_files
                                  (fst (update_one (f_id existing)
                                          (set_modified (fm_server_modified fm))
                                          (files s))) s)))
                   = Some (set_modified (Some t) existing)).
  { cbn [skipped_once Sync.with_files files]. rewrite Hremote.
    apply RefreshFacts.find_after_touch; assumption. }
  split; [reflexivity|]. split; [exact Hfound|].
  rewrite (DedupFacts.dedup_check_existing env' fm _ _ Hraise' Hfound).
  assert (Htime' : Py.truthy_opt_time
                     (dropbox_modified_at (set_modified (Some t) existing))
                   && Py.truthy_opt_time (fm_server_modified fm)
                   && bool_decide
                        (dropbox_modified_at (set_modified (Some t) existing)
                         = fm_server_modified fm) = true).
  { apply DedupFacts.same_time_test. exists t. split; [reflexivity|exact Hremote]. }
  rewrite Htime'. reflexivity.
Qed.

(** [/docs/a.pdf] touched on the server with unchanged content: the first
    check refreshes the stored time, the second skips on it. *)
Lemma hash_skip_makes_next_check_cheap_witness :
  let s := state_with (sample_file_hashed (Some "e3b0c4")) in
  let fm := a_pdf_touched (Some "e3b0c4") in
  let first := Sync.dedup_check sync_ok_env false fm s in
  fst first = Ok Sync.Skip
  /\ List.find (fun d => bool_decide (dropbox_file_id d = fm_id fm))
               (files (snd first))
     = Some (set_modified (Some 120) (sample_file_hashed (Some "e3b0c4")))
  /\ Sync.dedup_check sync_ok_env false fm (snd first)
     = (Ok Sync.Skip, skipped_once (snd first)).
Proof.
  cbv zeta.
  refine (hash_skip_makes_next_check_cheap sync_ok_env sync_ok_env
            (a_pdf_touched (Some "e3b0c4"))
            (state_with (sample_file_hashed (Some "e3b0c4")))
            (sample_file_hashed (Some "e3b0c4")) 120 "e3b0c4"
            eq_refl eq_refl eq_refl _ eq_refl eq_refl _ _ eq_refl eq_refl).
  - repeat constructor. set_solver.
  - discriminate.
  - discriminate.
Defined.

(* ===================================================================== *)
(** * Blob names, URLs and connection strings *)
(* ===================================================================== *)

Module StringFacts.
Import Blob.

Lemma append_cons (a : ascii) (s t : string) :
  String a s +:+ t = String a (s +:+ t).
Proof. reflexivity. Qed.

Lemma append_nil_r (s : string) : s +:+ "" = s.
Proof.
  induction s as [|a s IH]; [reflexivity|].
  rewrite append_cons, IH. reflexivity.
Qed.

Lemma append_assoc (s t u : string) : (s +:+ t) +:+ u = s +:+ t +:+ u.
Proof.
  induction s as [|a s IH]; [reflexivity|].
  rewrite !append_cons, IH. reflexivity.
Qed.

Lemma rev_app_append (s t : string) :
  String.rev_app s t = String.rev s +:+ t.
Proof.
  unfold String.rev. revert t.
  induction s as [|a s IH]; intros t; [reflexivity|].
  cbn [String.rev_app].
  rewrite IH, (IH (String a "")), append_assoc. reflexivity.
Qed.

Lemma rev_cons (a : ascii) (s : string) :
  String.rev (String a s) = String.rev s +:+ String a "".
Proof. unfold String.rev at 1. cbn. apply rev_app_append. Qed.

(** The accumulator of [split_go] is a prefix of the first piece. *)
Lemma split_go_acc sep s : forall cur,
  Py.split_go sep cur s
  = match Py.split sep s with
    | h :: t => (String.rev cur +:+ h) :: t
    | [] => []
    end.
Proof.
  unfold Py.split.
  induction s as [|a s IH]; intros cur.
  - cbn [Py.split_go]. change (String.rev "") with "".
    rewrite append_nil_r. reflexivity.
  - cbn [Py.split_go]. destruct (Ascii.eqb a sep).
    + change (String.rev "") with "". rewrite append_nil_r. reflexivity.
    + rewrite (IH (String a cur)), (IH (String a "")).
      destruct (Py.split_go sep "" s) as [|h t]; [reflexivity|].
      rewrite rev_cons, append_assoc. reflexivity.
Qed.

(** [split] unfolded one character at a time. *)
Lemma split_cons sep a s :
  Py.split sep (String a s)
  = if Ascii.eqb a sep then "" :: Py.split sep s
    else match Py.split sep s with
         | h :: t => String a h :: t
         | [] => []
         end.
Proof.
  unfold Py.split at 1. cbn [Py.split_go].
  destruct (Ascii.eqb a sep); [reflexivity|].
  rewrite split_go_acc. destruct (Py.split sep s); reflexivity.
Qed.

Lemma split_nil sep : Py.split sep "" = [""].
Proof. reflexivity. Qed.

Lemma split_nonempty sep s : Py.split sep s <> [].
Proof.
  induction s as [|a s IH]; [discriminate|].
  rewrite split_cons. destruct (Ascii.eqb a sep); [discriminate|].
  destruct (Py.split sep s); [contradiction|discriminate].
Qed.

(** A text without the separator is one piece. *)
Lemma split_lacks sep s : has_char sep s = false -> Py.split sep s = [s].
Proof.
  induction s as [|a s IH]; [reflexivity|].
  cbn [has_char]. intros H. apply orb_false_iff in H as [Ha Hs].
  rewrite split_cons, Ha, (IH Hs). reflexivity.
Qed.

(** Splitting after a first piece without separator. *)
Lemma split_app sep s t :
  has_char sep s = false ->
  Py.split sep (s +:+ String sep t) = s :: Py.split sep t.
Proof.
  induction s as [|a s IH]; cbn [has_char]; intros H.
  - change ("" +:+ String sep t) with (String sep t).
    rewrite split_cons, Ascii.eqb_refl. reflexivity.
  - apply orb_false_iff in H as [Ha Hs].
    change (String a s +:+ String sep t) with (String a (s +:+ String sep t)).
    rewrite split_cons, Ha, (IH Hs). reflexivity.
Qed.

Lemma join_cons_char sep a h t :
  Py.join sep (String a h :: t) = String a (Py.join sep (h :: t)).
Proof. destruct t; reflexivity. Qed.

(** Joining the pieces with the separator gives the text back. *)
Lemma join_split sep s : Py.join (String sep "") (Py.split sep s) = s.
Proof.
  induction s as [|a s IH]; [reflexivity|].
  rewrite split_cons. destruct (Ascii.eqb_spec a sep) as [->|Hne].
  - destruct (Py.split sep s) as [|h t] eqn:Hs;
      [exfalso; eapply split_nonempty, Hs|].
    change (Py.join (String sep "") ("" :: h :: t))
      with ("" +:+ String sep "" +:+ Py.join (String sep "") (h :: t)).
    rewrite IH. reflexivity.
  - destruct (Py.split sep s) as [|h t] eqn:Hs;
      [exfalso; eapply split_nonempty, Hs|].
    rewrite join_cons_char, IH. reflexivity.
Qed.

(** Splitting what was joined from pieces without separators gives the
    pieces back. *)
Lemma split_join sep parts :
  parts <> [] ->
  Forall (fun p => has_char sep p = false) parts ->
  Py.split sep (Py.join (String sep "") parts) = parts.
Proof.
  induction parts as [|p parts IH]; [contradiction|].
  intros _ Hall. inversion Hall as [|? ? Hp Hrest]; subst.
  destruct parts as [|q parts].
  - cbn [Py.join]. apply split_lacks, Hp.
  - change (Py.join (String sep "") (p :: q :: parts))
      with (p +:+ String sep "" +:+ Py.join (String sep "") (q :: parts)).
    change (String sep "" +:+ Py.join (String sep "") (q :: parts))
      with (String sep (Py.join (String sep "") (q :: parts))).
    rewrite split_app by exact Hp.
    rewrite IH; [reflexivity|discriminate|exact Hrest].
Qed.

(** The text before the first separator. *)
Lemma split_once_app sep k v :
  has_char sep k = false ->
  split_once sep (k +:+ String sep v) = (k, v).
Proof.
  induction k as [|a k IH]; cbn [has_char]; intros H.
  - change ("" +:+ String sep v) with (String sep v).
    cbn. rewrite Ascii.eqb_refl. reflexivity.
  - apply orb_false_iff in H as [Ha Hk].
    change (String a k +:+ String sep v) with (String a (k +:+ String sep v)).
    cbn [split_once]. rewrite Ha, (IH Hk). reflexivity.
Qed.

(** Python's [c in s] for a one-character [c]. *)
Lemma contains_char s c : Py.contains s (String c "") = has_char c s.
Proof.
  induction s as [|a s IH]; [reflexivity|].
  cbn [Py.contains has_char String.prefix]. rewrite IH.
  destruct (ascii_dec c a) as [->|Hne].
  - rewrite Ascii.eqb_refl. destruct s; reflexivity.
  - replace (Ascii.eqb a c) with false
      by (symmetry; apply Ascii.eqb_neq; congruence).
    reflexivity.
Qed.

Lemma has_char_app c s t :
  has_char c (s +:+ t) = has_char c s || has_char c t.
Proof.
  induction s as [|a s IH]; [reflexivity|].
  change (String a s +:+ t) with (String a (s +:+ t)).
  cbn [has_char]. rewrite IH, orb_assoc. reflexivity.
Qed.

End StringFacts.

Module UrlFacts.
Import Blob StringFacts.

Lemma prefix_app p : forall s t,
  String.prefix p s = true -> String.prefix p (s +:+ t) = true.
Proof.
  induction p as [|a p IH]; intros [|b s] t.
  - destruct t; reflexivity.
  - reflexivity.
  - discriminate.
  - rewrite append_cons. cbn [String.prefix].
    destruct (ascii_dec a b); [apply IH|discriminate].
Qed.

Lemma contains_app_l s t p :
  Py.contains s p = true -> Py.contains (s +:+ t) p = true.
Proof.
  induction s as [|a s IH].
  - cbn. rewrite orb_false_r. intros H.
    destruct p; [destruct t; reflexivity|discriminate].
  - rewrite append_cons. cbn [Py.contains].
    intros H. apply orb_true_iff in H as [H|H]; apply orb_true_iff.
    + left. apply (prefix_app p (String a s) t H).
    + right. apply IH, H.
Qed.

Lemma contains_app_r s t p :
  Py.contains t p = true -> Py.contains (s +:+ t) p = true.
Proof.
  intros H. induction s as [|a s IH]; [exact H|].
  rewrite append_cons. cbn [Py.contains]. rewrite IH. apply orb_true_r.
Qed.

(** The pieces of a storage URL. *)
Lemma split_storage_url host container rest :
  has_char "/" host = false ->
  has_char "/" container = false ->
  Py.split "/" ("https://" +:+ host +:+ "/" +:+ container +:+ "/" +:+ rest)
  = "https:" :: "" :: host :: container :: Py.split "/" rest.
Proof.
  intros Hhost Hcont.
  change ("https://" +:+ host +:+ "/" +:+ container +:+ "/" +:+ rest)
    with ("https:" +:+
          String "/" (String "/" (host +:+
            String "/" (container +:+ String "/" rest)))).
  rewrite split_app by reflexivity.
  rewrite split_cons. cbn [Ascii.eqb Bool.eqb].
  rewrite split_app by exact Hhost.
  rewrite split_app by exact Hcont.
  reflexivity.
Qed.

(** The text before the query. *)
Lemma before_query name query :
  has_char "?" name = false ->
  query = "" \/ (exists q, query = String "?" q) ->
  List.hd "" (Py.split "?" (name +:+ query)) = name.
Proof.
  intros Hname [->|[q ->]].
  - rewrite append_nil_r, split_lacks by exact Hname. reflexivity.
  - rewrite split_app by exact Hname. reflexivity.
Qed.

(** The blob name of a storage URL. *)
Lemma parse_storage_url host container name query :
  has_char "/" host = false ->
  has_char "/" container = false ->
  container <> "https:" -> container <> "" -> container <> host ->
  has_char "?" name = false ->
  query = "" \/ (exists q, query = String "?" q) ->
  blob_name_of_url container
    ("https://" +:+ host +:+ "/" +:+ container +:+ "/" +:+ name +:+ query)
  = name.
Proof.
  intros Hhost Hcont Hc1 Hc2 Hc3 Hname Hquery.
  unfold blob_name_of_url. cbv zeta.
  rewrite split_storage_url by assumption.
  cbn [index].
  rewrite !bool_decide_eq_false_2 by congruence.
  rewrite bool_decide_eq_true_2 by reflexivity.
  cbn [fmap option_fmap option_map Nat.add drop].
  rewrite drop_0, join_split.
  apply before_query; assumption.
Qed.

(** A storage URL is fetched through the SDK. *)
Lemma route_storage_url host container rest name :
  Py.contains host "blob.core.windows.net" = true ->
  blob_name_of_url container ("https://" +:+ host +:+ rest) = name ->
  _download_file true container ("https://" +:+ host +:+ rest)
  = download_blob container name.
Proof.
  intros Hblob Hparse. unfold _download_file. rewrite Hparse.
  replace (Py.contains _ "blob.core.windows.net") with true; [reflexivity|].
  symmetry. apply (contains_app_r "https://"). apply contains_app_l, Hblob.
Qed.

End UrlFacts.

(** The blob name of a storage URL comes back exactly: for a URL
    [https://<host>/<container>/<name><query>] whose container segment is
    the configured container, the worker asks the SDK for the blob [<name>],
    slashes included, with any [?...] query cut off.  Without a client, or
    for a URL that does not mention [blob.core.windows.net], it fetches the
    URL itself over HTTP. *)
Theorem blob_name_read_back_from_url
        (host container name query : string) :
  Blob.has_char "/" host = false ->
  Blob.has_char "/" container = false ->
  container <> "https:" -> container <> "" -> container <> host ->
  Blob.has_char "?" name = false ->
  query = "" \/ (exists q, query = String "?" q) ->
  let url := "https://" +:+ host +:+ "/" +:+ container +:+ "/" +:+ name
             +:+ query in
  Blob.blob_name_of_url container url = name
  /\ (Py.contains host "blob.core.windows.net" = true ->
      Blob._download_file true container url
      = Blob.download_blob container name)
  /\ Blob._download_file false container url = Blob.http_get url
  /\ (forall other,
         Py.contains other "blob.core.windows.net" = false ->
         Blob._download_file true container other = Blob.http_get other).
Proof.
  intros Hhost Hcont Hc1 Hc2 Hc3 Hname Hquery. cbv zeta.
  pose proof (UrlFacts.parse_storage_url host container name query
                Hhost Hcont Hc1 Hc2 Hc3 Hname Hquery) as Hparse.
  split; [exact Hparse|]. split; [|split].
  - intros Hblob. apply UrlFacts.route_storage_url; assumption.
  - reflexivity.
  - intros other Hother. unfold Blob._download_file. rewrite Hother.
    reflexivity.
Qed.

(** The blob that the sync route stores for [a.pdf] in the container
    [dropbox], addressed with a SAS query. *)
Lemma blob_name_read_back_witness :
  Blob.blob_name_of_url "dropbox"
    "https://acct.blob.core.windows.net/dropbox/dropbox/9f86d0/a.pdf?sv=2023&sig=abc"
  = "dropbox/9f86d0/a.pdf".
Proof.
  refine (proj1 (blob_name_read_back_from_url "acct.blob.core.windows.net"
                   "dropbox" "dropbox/9f86d0/a.pdf" "?sv=2023&sig=abc"
                   eq_refl eq_refl _ _ _ eq_refl _)).
  - discriminate.
  - discriminate.
  - discriminate.
  - right. eexists. reflexivity.
Defined.

Module ConnectionFacts.
Import Blob StringFacts.

Lemma item_lacks_semicolon kv :
  well_formed_item kv -> has_char ";" (connection_item kv) = false.
Proof.
  intros (Hk & _ & Hv). unfold connection_item.
  rewrite !has_char_app, Hk, Hv. reflexivity.
Qed.

Lemma item_parsed kv :
  well_formed_item kv ->
  Py.contains (connection_item kv) "=" = true
  /\ split_once "=" (connection_item kv) = (fst kv, snd kv).
Proof.
  intros (_ & Hk & _). unfold connection_item. split.
  - rewrite contains_char, !has_char_app. cbn. apply orb_true_r.
  - apply (split_once_app "=" (fst kv) (snd kv) Hk).
Qed.

Lemma fold_items kvs : forall parts : gmap string string,
  Forall well_formed_item kvs ->
  foldl (fun parts item =>
           if Py.contains item "="
           then <[fst (split_once "=" item) := snd (split_once "=" item)]>
                  parts
           else parts)
        parts (map connection_item kvs)
  = foldl (fun parts kv => <[fst kv := snd kv]> parts) parts kvs.
Proof.
  induction kvs as [|kv kvs IH]; intros parts Hall; [reflexivity|].
  inversion Hall as [|? ? Hkv Hrest]; subst.
  cbn [map foldl].
  destruct (item_parsed kv Hkv) as [-> ->]. cbn [fst snd].
  apply IH, Hrest.
Qed.

End ConnectionFacts.

(** A connection string written as [k1=v1;k2=v2;...] is read back item by
    item: the parsed dictionary is the one obtained by inserting the pairs
    in order (a repeated key keeps its last value), and a value keeps every
    [=] it contains. *)
Theorem connection_string_read_back (kvs : list (string * string)) :
  Forall Blob.well_formed_item kvs ->
  Blob.connection_parts (Blob.connection_string_of kvs)
  = foldl (fun (parts : gmap string string) kv => <[fst kv := snd kv]> parts)
          ∅ kvs.
Proof.
  intros Hall. unfold Blob.connection_parts, Blob.connection_string_of.
  destruct kvs as [|kv kvs]; [reflexivity|].
  rewrite StringFacts.split_join.
  - apply ConnectionFacts.fold_items, Hall.
  - discriminate.
  - apply Forall_fmap. eapply Forall_impl; [exact Hall|].
    intros kv' Hkv'. apply ConnectionFacts.item_lacks_semicolon, Hkv'.
Qed.

(** A storage connection string with a padded base64 key. *)
Lemma connection_string_read_back_witness :
  Blob.connection_parts
    "DefaultEndpointsProtocol=https;AccountName=acct;AccountKey=c2VjcmV0==;EndpointSuffix=core.windows.net"
  !! "AccountKey"
  = Some "c2VjcmV0==".
Proof.
  change "DefaultEndpointsProtocol=https;AccountName=acct;AccountKey=c2VjcmV0==;EndpointSuffix=core.windows.net"
    with (Blob.connection_string_of
            [("DefaultEndpointsProtocol", "https"); ("AccountName", "acct");
             ("AccountKey", "c2VjcmV0==");
             ("EndpointSuffix", "core.windows.net")]).
  rewrite connection_string_read_back.
  - reflexivity.
  - repeat constructor.
Defined.

(** The URL that [upload_markdown_to_blob] returns names its own blob: with
    an account name and key in the connection string and a SAS token, the
    URL is [https://<account>.blob.core.windows.net/<container>/markdown/
    <file_id>.md?<sas>], and the worker's URL reader finds the blob
    [markdown/<file_id>.md] in it.  When no token can be made, the SDK's
    URL is returned instead. *)
Theorem markdown_url_names_its_blob
        (connection_string container file_id sas client_url : string)
        (account key : string) :
  Blob.connection_parts connection_string !! "AccountName" = Some account ->
  Blob.connection_parts connection_string !! "AccountKey" = Some key ->
  account <> "" -> key <> "" ->
  Blob.has_char "/" account = false ->
  Blob.has_char "/" container = false ->
  container <> "https:" -> container <> "" ->
  container <> account +:+ ".blob.core.windows.net" ->
  Blob.has_char "?" file_id = false ->
  let name := "markdown/" +:+ file_id +:+ ".md" in
  let url := Blob.markdown_url connection_string container name (Some sas)
                               client_url in
  url = "https://" +:+ account +:+ ".blob.core.windows.net/" +:+ container
        +:+ "/" +:+ name +:+ "?" +:+ sas
  /\ Blob.blob_name_of_url container url = name
  /\ Blob._download_file true container url
     = Blob.download_blob container name
  /\ Blob.markdown_url connection_string container name None client_url
     = client_url.
Proof.
  intros Hacc Hkey Ha Hk Hslash Hcont Hc1 Hc2 Hc3 Hfid. cbv zeta.
  assert (Hurl : Blob.markdown_url connection_string container
                   ("markdown/" +:+ file_id +:+ ".md") (Some sas) client_url
                 = "https://" +:+ (account +:+ ".blob.core.windows.net")
                   +:+ "/" +:+ container +:+ "/"
                   +:+ ("markdown/" +:+ file_id +:+ ".md")
                   +:+ String "?" sas).
  { unfold Blob.markdown_url. rewrite Hacc, Hkey.
    apply DedupFacts.truthy_str_nonempty in Ha, Hk. rewrite Ha, Hk.
    cbn [andb]. rewrite (StringFacts.append_assoc account). reflexivity. }
  assert (Hhost : Blob.has_char "/" (account +:+ ".blob.core.windows.net")
                  = false).
  { rewrite StringFacts.has_char_app, Hslash. reflexivity. }
  assert (Hname : Blob.has_char "?" ("markdown/" +:+ file_id +:+ ".md")
                  = false).
  { change ("markdown/" +:+ file_id +:+ ".md")
      with ("markdown/" +:+ (file_id +:+ ".md")).
    rewrite !StringFacts.has_char_app, Hfid. reflexivity. }
  assert (Hparse : Blob.blob_name_of_url container
                     (Blob.markdown_url connection_string container
                        ("markdown/" +:+ file_id +:+ ".md") (Some sas)
                        client_url)
                   = "markdown/" +:+ file_id +:+ ".md").
  { rewrite Hurl.
    apply UrlFacts.parse_storage_url; try assumption.
    right. eexists. reflexivity. }
  split; [|split; [exact Hparse|split]].
  - rewrite Hurl, (StringFacts.append_assoc account). reflexivity.
  - rewrite Hurl in Hparse |- *.
    apply UrlFacts.route_storage_url; [|exact Hparse].
    apply UrlFacts.contains_app_r. reflexivity.
  - unfold Blob.markdown_url. rewrite Hacc, Hkey.
    destruct (_ && _); reflexivity.
Qed.

(** The markdown of the sample record in the container [dropbox]. *)
Lemma markdown_url_names_its_blob_witness :
  Blob.blob_name_of_url "dropbox"
    (Blob.markdown_url
       "DefaultEndpointsProtocol=https;AccountName=acct;AccountKey=c2VjcmV0=="
       "dropbox" "markdown/0123456789abcdef01234567.md" (Some "sv=2023&sig=x")
       "https://sdk/url")
  = "markdown/0123456789abcdef01234567.md".
Proof.
  refine (proj1 (proj2 (markdown_url_names_its_blob
                          "DefaultEndpointsProtocol=https;AccountName=acct;AccountKey=c2VjcmV0=="
                          "dropbox" "0123456789abcdef01234567" "sv=2023&sig=x"
                          "https://sdk/url" "acct" "c2VjcmV0=="
                          _ _ _ _ eq_refl eq_refl _ _ _ eq_refl))).
  - reflexivity.
  - reflexivity.
  - discriminate.
  - discriminate.
  - discriminate.
  - discriminate.
  - discriminate.
Defined.

(** ** File names, listings and the queue message *)

Module ExtensionFacts.
Import Blob StringFacts DropboxService.

Lemma lower_ascii_idem a :
  Py.lower_ascii (Py.lower_ascii a) = Py.lower_ascii a.
Proof. destruct a as [[] [] [] [] [] [] [] []]; reflexivity. Qed.


Lemma lower_idem s : Py.lower (Py.lower s) = Py.lower s.
Proof.
  induction s as [|a s IH]; cbn; [reflexivity|].
  now rewrite lower_ascii_idem, IH.
Qed.






(** Splitting distributes over a separator in the middle. *)
Lemma split_at sep s t :
  Py.split sep (s +:+ String sep t) = Py.split sep s ++ Py.split sep t.
Proof.
  induction s as [|a s IH].
  - change ("" +:+ String sep t) with (String sep t).
    rewrite split_cons, Ascii.eqb_refl. reflexivity.
  - rewrite append_cons, !split_cons, IH.
    destruct (Ascii.eqb a sep); [reflexivity|].
    destruct (Py.split sep s) as [|h tl] eqn:Hs;
      [exfalso; eapply split_nonempty, Hs|reflexivity].
Qed.


Lemma extension_is_lower name :
  Py.lower (get_file_extension name) = get_file_extension name.
Proof.
  unfold get_file_extension.
  destruct (Py.contains name "."); [apply lower_idem|reflexivity].
Qed.


Lemma extension_dotted stem ext :
  has_char "." ext = false ->
  get_file_extension (stem +:+ "." +:+ ext) = Py.lower ext.
Proof.
  intros Hext. unfold get_file_extension.
  rewrite contains_char, has_char_app.
  replace (has_char "." ("." +:+ ext)) with true by reflexivity.
  rewrite orb_true_r.
  change ("." +:+ ext) with (String "." ext).
  rewrite split_at, (split_lacks _ _ Hext), last_last. reflexivity.
Qed.

End ExtensionFacts.

(** The extension of a name is what follows its last dot, in lower case:
    [stem.ext] gives [lower ext] whatever dots or capitals [stem] has, so
    whether the type is supported depends on [lower ext] alone. *)
Theorem extension_is_lowercased_tail (stem ext : string) :
  Blob.has_char "." ext = false ->
  DropboxService.get_file_extension (stem +:+ "." +:+ ext) = Py.lower ext
  /\ DropboxService.is_supported_file_type
       (DropboxService.get_file_extension (stem +:+ "." +:+ ext))
     = bool_decide (Py.lower ext ∈ DropboxService.supported_types).
Proof.
  intros Hext. rewrite (ExtensionFacts.extension_dotted _ _ Hext).
  split; [reflexivity|].
  unfold DropboxService.is_supported_file_type.
  now rewrite ExtensionFacts.lower_idem.
Qed.

Lemma extension_is_lowercased_tail_witness :
  DropboxService.get_file_extension "Report.v2.PDF" = "pdf"
  /\ DropboxService.is_supported_file_type
       (DropboxService.get_file_extension "Report.v2.PDF") = true.
Proof.
  exact (extension_is_lowercased_tail "Report.v2" "PDF" eq_refl).
Defined.


Module ListingFacts.
Import Listing DropboxService.

Lemma listed_matches t ts entry fm :
  listed (Some (t :: ts)) entry = Some fm ->
  get_file_extension (fm_name fm) ∈ t :: ts.
Proof.
  destruct entry as [fm'|name]; cbn [listed]; [|discriminate].
  fold (get_file_extension (fm_name fm')).
  case_bool_decide as Hin; [|discriminate].
  intros [= <-]. exact Hin.
Qed.

Lemma collect_pages file_types pages : forall files,
  collect file_types pages = Some files ->
  exists entries,
    pages = map Some entries
    /\ files = omap (listed file_types) (concat entries).
Proof.
  induction pages as [|[page|] pages IH]; cbn [collect]; intros files.
  - intros [= <-]. exists []. split; reflexivity.
  - destruct (collect file_types pages) as [rest|]; [|discriminate].
    intros [= <-]. destruct (IH rest eq_refl) as (entries & -> & ->).
    exists (page :: entries). split; [reflexivity|].
    cbn [concat]. now rewrite omap_app.
  - discriminate.
Qed.

Lemma omap_listed_matches t ts entries :
  Forall (fun fm => get_file_extension (fm_name fm) ∈ t :: ts)
         (omap (listed (Some (t :: ts))) entries).
Proof.
  induction entries as [|e entries IH]; cbn [omap list_omap]; [constructor|].
  destruct (listed (Some (t :: ts)) e) as [fm|] eqn:He; [|exact IH].
  constructor; [eapply listed_matches, He|exact IH].
Qed.

End ListingFacts.

(** With a filter, [list_files] returns, in listing order, files only, and
    each one's lower-cased extension is literally an entry of the filter.
    The entries of the filter are compared as given: one that is not in
    lower case matches no file, and a filter without a lower-case entry
    lists nothing. *)
Theorem listing_filter_is_case_sensitive
        (first : option (list Listing.Entry))
        (more : list (option (list Listing.Entry)))
        (types : list string) (files : list FileMetadata) :
  types <> [] ->
  Listing.list_files first more (Some types) = Some files ->
  Forall (fun fm =>
            exists t, t ∈ types /\ Py.lower t = t
                      /\ DropboxService.get_file_extension (fm_name fm) = t)
         files
  /\ (Forall (fun t => Py.lower t <> t) types -> files = []).
Proof.
  intros Hne Hlist. destruct types as [|t ts]; [congruence|].
  unfold Listing.list_files in Hlist.
  destruct (ListingFacts.collect_pages _ _ _ Hlist) as (entries & _ & ->).
  pose proof (ListingFacts.omap_listed_matches t ts (concat entries)) as Hall.
  assert (Hmain : Forall (fun fm =>
            exists t', t' ∈ t :: ts /\ Py.lower t' = t'
                      /\ DropboxService.get_file_extension (fm_name fm) = t')
         (omap (Listing.listed (Some (t :: ts))) (concat entries))).
  { eapply Forall_impl; [exact Hall|]. cbn beta. intros fm Hin.
    eexists. split; [exact Hin|]. split; [|reflexivity].
    apply ExtensionFacts.extension_is_lower. }
  split; [exact Hmain|].
  intros Hupper.
  destruct (omap (Listing.listed (Some (t :: ts))) (concat entries))
    as [|fm rest]; [reflexivity|].
  inversion Hmain as [|? ? (t' & Hin & Hlow & _) _]; subst.
  rewrite Forall_forall in Hupper. exfalso. exact (Hupper t' Hin Hlow).
Qed.

Lemma listing_filter_is_case_sensitive_witness :
  Listing.collect (Some ["pdf"]) sample_pages
  = Some [named "a.pdf"; named "B.PDF"]
  /\ Listing.collect (Some ["PDF"]) sample_pages = Some []
  /\ Forall (fun fm =>
               exists t, t ∈ ["pdf"] /\ Py.lower t = t
                         /\ DropboxService.get_file_extension (fm_name fm) = t)
            [named "a.pdf"; named "B.PDF"].
Proof.
  split; [reflexivity|]. split; [reflexivity|].
  refine (proj1 (listing_filter_is_case_sensitive
                   (Some [Listing.file_entry (named "a.pdf");
                          Listing.other_entry "archive";
                          Listing.file_entry (named "B.PDF")])
                   [Some [Listing.file_entry (named "notes.txt");
                          Listing.file_entry (named "README")]]
                   ["pdf"] [named "a.pdf"; named "B.PDF"] _ _)).
  - discriminate.
  - reflexivity.
Defined.

(** The worker reads back what the queue service wrote: the body built by
    [send_dropbox_processing_message] carries, under the keys the worker
    looks up, the id, URL, name, type and path it was given, and it passes
    the worker's check of the required fields exactly when none of the four
    is the empty text. *)
Theorem worker_reads_queue_message
        (file_id dropbox_path dropbox_file_id blob_url filename file_type
         user_id timestamp : string)
        (additional_metadata : option (list (string * string))) :
  let message_data :=
    {| msg_file_id := Some file_id; msg_blob_url := Some blob_url;
       msg_filename := Some filename; msg_file_type := Some file_type;
       msg_dropbox_path := dropbox_path |} in
  Queue.message_fields
    (Queue.message_body file_id dropbox_path dropbox_file_id blob_url
                        filename file_type user_id additional_metadata
                        timestamp)
  = Some message_data
  /\ (Worker.required_fields message_data
      = Some (file_id, blob_url, filename, file_type)
      <-> file_id <> "" /\ blob_url <> "" /\ filename <> ""
          /\ file_type <> "")
  /\ (Worker.required_fields message_data = None
      <-> file_id = "" \/ blob_url = "" \/ filename = "" \/ file_type = "").
Proof.
  cbv zeta. split; [reflexivity|].
  unfold Worker.required_fields. cbn.
  destruct file_id, blob_url, filename, file_type; cbn;
    (split; split; try discriminate; try reflexivity;
     try (intros (? & ? & ? & ?); congruence);
     try (intros; repeat split; discriminate);
     try (intros [?|[?|[?|?]]]; discriminate);
     try (intros; tauto)).
Qed.

(** [GET /api/dropbox/files/{file_id}] never answers 404.  It returns the
    record's fields when the id is well formed, the lookup works and the
    record exists; in every other case, a missing record included, the
    outer handler turns the exception into a 500.  The collection is left
    as it was. *)
Theorem file_status_never_404
        (find_raises : bool) (file_id : string) (c : list FileDoc) :
  let answer := Routes.get_file_status find_raises file_id c in
  snd answer = c
  /\ fst answer <> Raise (Routes.http_error "404")
  /\ (fst answer
      = match ObjectId file_id with
        | Some oid =>
            if find_raises then Raise (Routes.http_error "500")
            else match find_by_id oid c with
                 | Some file => Ok (Routes.response_of file)
                 | None => Raise (Routes.http_error "500")
                 end
        | None => Raise (Routes.http_error "500")
        end).
Proof.
  cbv zeta. unfold Routes.get_file_status, try_except, bind, raise, ret.
  destruct (ObjectId file_id) as [oid|]; [|repeat split; discriminate].
  destruct find_raises; [repeat split; discriminate|].
  destruct (find_by_id oid c); repeat split; discriminate.
Qed.

Module StageFacts.
Import Docling Worker WorkerFacts.


End StageFacts.



Module TrimFacts.
Import Docling StringFacts.

Lemma rev_snoc x a :
  String.rev (x +:+ String a "") = String a (String.rev x).
Proof.
  induction x as [|b x IH]; [reflexivity|].
  rewrite append_cons, rev_cons, IH, rev_cons. reflexivity.
Qed.

Lemma rev_rev s : String.rev (String.rev s) = s.
Proof.
  induction s as [|a s IH]; [reflexivity|].
  now rewrite rev_cons, rev_snoc, IH.
Qed.

(** What [lstrip] leaves does not start with whitespace. *)
Lemma lstrip_head s a t :
  Py.lstrip s = String a t -> Py.is_space a = false.
Proof.
  induction s as [|b s IH]; cbn [Py.lstrip]; [discriminate|].
  destruct (Py.is_space b) eqn:Hb; [exact IH|].
  intros [= <- _]. exact Hb.
Qed.

Lemma lstrip_fixed s : Py.lstrip (Py.lstrip s) = Py.lstrip s.
Proof.
  destruct (Py.lstrip s) as [|a t] eqn:Hs; [reflexivity|].
  cbn [Py.lstrip]. now rewrite (lstrip_head _ _ _ Hs).
Qed.

Lemma lstrip_snoc x a :
  x <> "" ->
  Py.lstrip (x +:+ String a "") = x +:+ String a "" ->
  Py.lstrip x = x.
Proof.
  destruct x as [|b x]; [congruence|]. intros _.
  rewrite append_cons. intros H.
  pose proof (lstrip_head _ _ _ H) as Hb.
  cbn [Py.lstrip]. now rewrite Hb.
Qed.

(** A text without trailing whitespace keeps that after [lstrip]. *)
Lemma lstrip_keeps_end t :
  Py.lstrip (String.rev t) = String.rev t ->
  Py.lstrip (String.rev (Py.lstrip t)) = String.rev (Py.lstrip t).
Proof.
  induction t as [|a t IH]; [reflexivity|].
  cbn [Py.lstrip]. destruct (Py.is_space a) eqn:Ha; [|trivial].
  rewrite rev_cons. intros H. apply IH.
  destruct (String.rev t) as [|b x] eqn:Hx; [reflexivity|].
  rewrite <- Hx in H |- *. apply (lstrip_snoc _ a); [|exact H].
  rewrite Hx. discriminate.
Qed.

(** [strip] leaves no whitespace at the start or at the end. *)
Lemma strip_ends s :
  Py.lstrip (Py.strip s) = Py.strip s
  /\ Py.lstrip (String.rev (Py.strip s)) = String.rev (Py.strip s).
Proof.
  unfold Py.strip.
  set (w := Py.lstrip s).
  assert (Hw : Py.lstrip w = w) by apply lstrip_fixed.
  set (u := Py.lstrip (String.rev w)).
  split.
  - apply lstrip_keeps_end. now rewrite rev_rev.
  - rewrite rev_rev. apply lstrip_fixed.
Qed.

Lemma chunk_loop_trimmed env pieces : forall idx,
  Forall (fun c => content c <> ""
                   /\ Py.lstrip (content c) = content c
                   /\ Py.lstrip (String.rev (content c))
                      = String.rev (content c)
                   /\ char_count c = String.length (content c)
                   /\ chunk_type c = classify (content c)
                   /\ embedding c = None)
         (chunk_loop env idx pieces).
Proof.
  induction pieces as [|piece pieces IH]; intros idx; cbn [chunk_loop];
    [constructor|].
  destruct (Py.truthy_str (Py.strip piece)) eqn:Hp; [|apply IH].
  constructor; [|apply IH]. cbn.
  split; [intros E; rewrite E in Hp; discriminate|].
  split; [apply strip_ends|]. split; [apply strip_ends|]. repeat split.
Qed.

End TrimFacts.

(** Every chunk that [chunk_markdown] returns has a non-empty content that
    neither starts nor ends with whitespace; its [char_count] is the length
    of that content, its type is decided on that content, and it has no
    embedding yet. *)
Theorem chunks_are_trimmed (env : WorkerEnv) (markdown_content : string) :
  Forall (fun c => content c <> ""
                   /\ Py.lstrip (content c) = content c
                   /\ Py.lstrip (String.rev (content c))
                      = String.rev (content c)
                   /\ char_count c = String.length (content c)
                   /\ chunk_type c = Docling.classify (content c)
                   /\ embedding c = None)
         (Docling.chunk_markdown env markdown_content).
Proof.
  unfold Docling.chunk_markdown.
  destruct (split_text env markdown_content);
    [apply TrimFacts.chunk_loop_trimmed|constructor].
Qed.
